(** * Agent example scripts: the pure tools, the command loop and the
      start-up checks

    A shallow embedding of the three scripts under
    [skills/ms-agent-framework/scripts]:

    - [conversation_loop.py]  (module [conversation_loop])
    - [tool_agent_template.py] (module [tool_agent_template])
    - [basic_agent_template.py] (module [basic_agent_template])

    Everything the scripts delegate to the outside (the agent framework,
    the credential provider, [eval], the terminal) is a parameter of the
    definitions; what a script does with it is recorded as a trace of
    [event]s.

    Strings.  A Python [str] is modelled by [string], the text in its
    UTF-8 encoding.  Every character of the literals the scripts compare
    against is ASCII, and a code point outside ASCII is encoded with bytes
    above 127 only, so membership tests and comparisons against those
    literals agree with Python's.  [strip] removes the encodings of
    the whitespace code points from both ends, as [str.strip] removes
    the characters; [str.lower] is taken through the interface
    [Lower]. *)

From Stdlib Require Import ZArith QArith Qcanon String Ascii List Lia.
From Stdlib Require Import DecimalString Uint63 PrimFloat.
From stdpp Require Import gmap strings list.

Open Scope string_scope.
Open Scope list_scope.

(** ** Python values shared by the scripts *)

(** The exception classes the handlers of the scripts tell apart.
    [Exception] stands for any class under Python's [Exception] other
    than [EOFError]; [BaseException] for any class outside [Exception]
    other than [KeyboardInterrupt]. *)
Inductive exn_class : Type :=
| KeyboardInterrupt
| EOFError
| Exception
| BaseException.

Record exn : Type := mk_exn { exn_cls : exn_class; exn_str : string }.

(** [isinstance(e, Exception)] *)
Definition is_Exception (e : exn) : bool :=
  match exn_cls e with
  | EOFError | Exception => true
  | KeyboardInterrupt | BaseException => false
  end.

(** A call either returns or raises. *)
Inductive result (A : Type) : Type :=
| Return (a : A)
| Raise (e : exn).
Arguments Return {A} a.
Arguments Raise {A} e.

(** A tool as the agent exposes it: [tool.name], [tool.description]. *)
Record tool : Type := mk_tool { tool_name : string; tool_description : string }.

(** A tool call reported by [agent.run]: [tool_call.name] and the text of
    [tool_call.arguments]. *)
Record tool_call : Type := mk_tool_call { call_name : string; call_arguments : string }.

(** What a script does to the outside world, in order. *)
Inductive event : Type :=
| Stdout (text : string)            (* text written to standard output *)
| Traceback (e : exn)               (* traceback.print_exc() *)
| EvalCall (expression : string)    (* eval(expression, ...) *)
| NewClient                         (* AzureOpenAIChatClient(credential=AzureCliCredential()) *)
| CreateAgent (name : string) (tools : list string)   (* client.create_agent(...) *)
| AgentRun (message : string)       (* agent.run(message) *)
| RunStream (message : string).     (* agent.run_stream(message) *)

(** Traces that only write to standard output: neither the framework
    nor [eval] is called. *)
Definition only_stdout (out : list event) : Prop :=
  Forall (fun ev => exists text, ev = Stdout text) out.

Definition nl : string := String (ascii_of_nat 10) "".

(** [print(text)] and [print(text, end="")] *)
Definition print (text : string) : list event := [Stdout (text +:+ nl)].
Definition print_end (text : string) : list event := [Stdout text].

(** [s * n] on strings *)
Fixpoint str_repeat (s : string) (n : nat) : string :=
  match n with
  | O => ""
  | S n' => s +:+ str_repeat s n'
  end.

(** [str(n)] for an integer *)
Definition str_of_Z (n : Z) : string := NilZero.string_of_int (Z.to_int n).

(** [c in chars] *)
Definition char_in (c : ascii) (chars : list ascii) : bool :=
  existsb (Ascii.eqb c) chars.

(** The UTF-8 encoding of a code point. *)
Definition utf8 (code_point : N) : list ascii :=
  let byte (n : N) := ascii_of_N n in
  let tail (n : N) := byte (0x80 + n mod 64)%N in
  if (code_point <? 0x80)%N then [byte code_point]
  else if (code_point <? 0x800)%N
  then [byte (0xC0 + code_point / 64)%N; tail code_point]
  else if (code_point <? 0x10000)%N
  then [byte (0xE0 + code_point / 4096)%N; tail (code_point / 64)%N;
        tail code_point]
  else [byte (0xF0 + code_point / 262144)%N; tail (code_point / 4096)%N;
        tail (code_point / 64)%N; tail code_point].

(** The code points that are whitespace to [str.strip] and
    [str.isspace]: the ASCII ones (tab to carriage return, the four
    separators, the space), next line, the no-break space and the
    Unicode spaces and line separators. *)
Definition whitespace_code_points : list N :=
  [ 0x09; 0x0A; 0x0B; 0x0C; 0x0D; 0x1C; 0x1D; 0x1E; 0x1F; 0x20;
    0x85; 0xA0; 0x1680;
    0x2000; 0x2001; 0x2002; 0x2003; 0x2004; 0x2005; 0x2006; 0x2007;
    0x2008; 0x2009; 0x200A;
    0x2028; 0x2029; 0x202F; 0x205F; 0x3000 ]%N.

(** Their encodings: a text begins (ends) with a whitespace character
    when it begins (ends) with one of these byte sequences. *)
Definition whitespace : list (list ascii) := map utf8 whitespace_code_points.

(** [Some rest] when [bytes] is [prefix] followed by [rest]. *)
Fixpoint drop_prefix (prefix bytes : list ascii) : option (list ascii) :=
  match prefix, bytes with
  | [], _ => Some bytes
  | a :: prefix', b :: bytes' =>
      if Ascii.eqb a b then drop_prefix prefix' bytes' else None
  | _ :: _, [] => None
  end.

(** What follows the first entry of [table] that [bytes] begins with. *)
Fixpoint drop_first (table : list (list ascii)) (bytes : list ascii)
  : option (list ascii) :=
  match table with
  | [] => None
  | entry :: table' =>
      match drop_prefix entry bytes with
      | Some rest => Some rest
      | None => drop_first table' bytes
      end
  end.

(** No entry is empty and none begins another: decided by running
    through the table. *)
Definition well_formed (table : list (list ascii)) : bool :=
  forallb
    (fun entry1 =>
       match entry1 with
       | [] => false
       | _ :: _ =>
           forallb
             (fun entry2 =>
                match drop_prefix entry1 entry2 with
                | Some (_ :: _) => false
                | _ => true
                end) table
       end) table.

(** Removes entries of [table] from the front for as long as there is
    one; [fuel] bounds the number of removals. *)
Fixpoint lstrip_with (table : list (list ascii)) (fuel : nat)
    (bytes : list ascii) : list ascii :=
  match fuel with
  | O => bytes
  | S fuel' =>
      match drop_first table bytes with
      | Some rest => lstrip_with table fuel' rest
      | None => bytes
      end
  end.

Definition lstrip_bytes (bytes : list ascii) : list ascii :=
  lstrip_with whitespace (length bytes) bytes.

Definition rstrip_bytes (bytes : list ascii) : list ascii :=
  rev (lstrip_with (map (@rev ascii) whitespace) (length bytes) (rev bytes)).

(** [s.strip()]: the whitespace characters at both ends removed. *)
Definition strip (s : string) : string :=
  string_of_list_ascii (rstrip_bytes (lstrip_bytes (list_ascii_of_string s))).

(** A blank text: the encoding of whitespace code points only. *)
Definition blank (s : string) : Prop :=
  exists code_points,
    Forall (fun c => In c whitespace_code_points) code_points
    /\ list_ascii_of_string s = flat_map utf8 code_points.

(** A text of ASCII characters only. *)
Definition is_ascii (s : string) : bool :=
  forallb (fun c => (nat_of_ascii c <? 128)%nat) (list_ascii_of_string s).

Definition ascii_lower_char (c : ascii) : ascii :=
  let n := nat_of_ascii c in
  if ((65 <=? n)%nat && (n <=? 90)%nat) then ascii_of_nat (n + 32) else c.

(** [s.lower()] for a text of ASCII characters: the letters A to Z
    become a to z. *)
Fixpoint ascii_lower (s : string) : string :=
  match s with
  | EmptyString => EmptyString
  | String c s' => String (ascii_lower_char c) (ascii_lower s')
  end.

(** [s.startswith('/')] *)
Definition startswith_slash (s : string) : bool :=
  match s with
  | String c _ => Ascii.eqb c "/"
  | EmptyString => false
  end.

(** [str.lower] belongs to the runtime and follows the Unicode case
    tables, which are not reproduced here.  The scripts are modelled
    against this interface: a function on texts with two facts that hold
    of [str.lower].  On ASCII text it is [ascii_lower]; and a text and
    its lowercase begin with a slash together (the slash is no letter,
    no character lowercases to it, none to nothing). *)
Class Lower : Type := {
  lower : string -> string;
  lower_ascii : forall s, is_ascii s = true -> lower s = ascii_lower s;
  lower_slash : forall s, startswith_slash (lower s) = startswith_slash s
}.

Lemma ascii_lower_char_slash (c : ascii) :
  Ascii.eqb (ascii_lower_char c) "/" = Ascii.eqb c "/".
Proof. destruct c as [[] [] [] [] [] [] [] []]; reflexivity. Qed.

Lemma startswith_slash_ascii_lower (s : string) :
  startswith_slash (ascii_lower s) = startswith_slash s.
Proof. destruct s as [|c s]; [reflexivity | apply ascii_lower_char_slash]. Qed.

(** The lowercasing of ASCII text, bytes above 127 left alone: what
    [str.lower] does on the ASCII lines of the examples below. *)
Definition ascii_only : Lower := {|
  lower := ascii_lower;
  lower_ascii := fun s _ => eq_refl;
  lower_slash := startswith_slash_ascii_lower
|}.

(** [not v] for the value of [os.environ.get(key)]: [None] and the empty
    string are falsy. *)
Definition not_set (v : option string) : bool :=
  match v with
  | None => true
  | Some s => String.eqb s ""
  end.

Definition AZURE_OPENAI_ENDPOINT : string := "AZURE_OPENAI_ENDPOINT".
Definition AZURE_OPENAI_DEPLOYMENT_NAME : string := "AZURE_OPENAI_DEPLOYMENT_NAME".

(** ** conversation_loop.py *)
Module conversation_loop.

Definition allowed_chars : list ascii :=
  list_ascii_of_string "0123456789+-*/(). ".

Definition invalid_characters : string :=
  "Error: Expression contains invalid characters".

(** [calculate(expression)].  [eval] is Python's, given the expression
    and empty builtins: [Return text] when it yields a value whose
    formatting in the f-string is [text], [Raise e] when the evaluation
    (or that formatting) raises.  The result is the trace and what the
    call returns; an exception outside [Exception] is not caught. *)
Definition calculate (eval : string -> result string) (expression : string)
  : list event * result string :=
  if negb (forallb (fun c => char_in c allowed_chars)
                   (list_ascii_of_string expression))
  then ([], Return invalid_characters)
  else
    match eval expression with
    | Return text =>
        ([EvalCall expression], Return (expression +:+ " = " +:+ text))
    | Raise e =>
        if is_Exception e
        then ([EvalCall expression],
              Return ("Error calculating: " +:+ exn_str e))
        else ([EvalCall expression], Raise e)
    end.

(** What [agent.run_stream(message)] delivers to the [async for]: the
    texts of the chunks it yields, then either the end of the stream
    ([None]) or an exception raised in place of the next chunk. *)
Record stream : Type := mk_stream
  { chunks : list string; stream_end : option exn }.

(** How one pass through the body of [while True] ends. *)
Inductive control : Type :=
| Continue
| Break
| Propagate (e : exn).

Section ConversationLoop.

(** The agent is the framework's object.  [agent_tools] reads
    [agent.tools]; [run_stream] gives the stream of one call and the
    agent as the call leaves it. *)
Context {Agent : Type} {L : Lower}.
Variable agent_tools : Agent -> list tool.
Variable run_stream : Agent -> string -> stream * Agent.

(** The fields of a [ConversationLoop] object. *)
Record ConversationLoop : Type := mk_loop
  { agent : Agent; conversation_count : Z }.

(** [ConversationLoop.__init__] *)
Definition init (a : Agent) : ConversationLoop :=
  {| agent := a; conversation_count := 0 |}.

Definition print_welcome : list event :=
  print (nl +:+ str_repeat "=" 60) ++
  print "Microsoft Agent Framework - Interactive Conversation" ++
  print (str_repeat "=" 60) ++
  print (nl +:+ "Commands:") ++
  print "  /help  - Show this help message" ++
  print "  /clear - Clear conversation history and start fresh" ++
  print "  /tools - Show available tools" ++
  print "  /quit  - Exit the conversation" ++
  print (nl +:+ "Type your message and press Enter to chat with the agent.") ++
  print (str_repeat "=" 60 +:+ nl).

Definition print_help : list event :=
  print (nl +:+ "Available commands:") ++
  print "  /help  - Show this help message" ++
  print "  /clear - Clear conversation history" ++
  print "  /tools - Show available tools" ++
  print ("  /quit  - Exit the conversation" +:+ nl).

Definition show_tools (self : ConversationLoop) : list event :=
  match agent_tools (agent self) with
  | [] => print (nl +:+ "No tools available for this agent." +:+ nl)
  | tools =>
      print (nl +:+ "Available tools ("
             +:+ str_of_Z (Z.of_nat (length tools)) +:+ "):") ++
      flat_map (fun t => print ("  • " +:+ tool_name t +:+ ": "
                                +:+ tool_description t)) tools ++
      print ""
  end.

Definition clear_history (self : ConversationLoop)
  : list event * ConversationLoop :=
  (print (nl +:+ "[Conversation history cleared]" +:+ nl),
   {| agent := agent self; conversation_count := 0 |}).

Definition goodbye : list event :=
  print (nl +:+ "Goodbye! Thanks for chatting." +:+ nl).

(** The farewell of the [EOFError] handler, with one more line break in
    front than that of /quit. *)
Definition goodbye_eof : list event :=
  print (nl +:+ nl +:+ "Goodbye! Thanks for chatting." +:+ nl).

Definition use_quit : list event :=
  print (nl +:+ nl +:+ "Use /quit to exit properly." +:+ nl).

Definition unknown_command (command : string) : list event :=
  print ("Unknown command: " +:+ command) ++
  print ("Type /help for available commands." +:+ nl).

(** The two [except] clauses of the outer [try]. *)
Definition outer_handlers (self : ConversationLoop) (e : exn)
  : list event * ConversationLoop * control :=
  match exn_cls e with
  | KeyboardInterrupt => (use_quit, self, Continue)
  | EOFError => (goodbye_eof, self, Break)
  | Exception | BaseException => ([], self, Propagate e)
  end.

(** One pass through the body of [while True].  [line] is what
    [input("You: ")] does after writing its prompt: return the line read
    or raise. *)
Definition iteration (self : ConversationLoop) (line : result string)
  : list event * ConversationLoop * control :=
  let prompt := [Stdout "You: "] in
  match line with
  | Raise e =>
      let '(out, self', c) := outer_handlers self e in (prompt ++ out, self', c)
  | Return raw =>
      let user_input := strip raw in
      if String.eqb user_input "" then (prompt, self, Continue)
      else if startswith_slash user_input then
        let command := lower user_input in
        if String.eqb command "/quit" || String.eqb command "/exit"
        then (prompt ++ goodbye, self, Break)
        else if String.eqb command "/help"
        then (prompt ++ print_help, self, Continue)
        else if String.eqb command "/clear"
        then let '(out, self') := clear_history self in
             (prompt ++ out, self', Continue)
        else if String.eqb command "/tools"
        then (prompt ++ show_tools self, self, Continue)
        else (prompt ++ unknown_command command, self, Continue)
      else
        let '(s, agent') := run_stream (agent self) user_input in
        let self1 :=
          {| agent := agent'; conversation_count := conversation_count self |} in
        let out :=
          prompt ++ print_end "Agent: " ++ [RunStream user_input]
                 ++ flat_map print_end (chunks s) in
        match stream_end s with
        | None =>
            (out ++ print "" ++ print "",
             {| agent := agent';
                conversation_count := conversation_count self + 1 |},
             Continue)
        | Some e =>
            if is_Exception e
            then (out ++ print (nl +:+ "[Error: " +:+ exn_str e +:+ "]"),
                  self1, Continue)
            else let '(out', self', c) := outer_handlers self1 e in
                 (out ++ out', self', c)
        end
  end.

Definition end_of_input : exn := mk_exn EOFError "EOF when reading a line".

(** The [while True] loop.  [stdin] lists what the successive calls of
    [input] do; once it is used up the terminal is at its end and [input]
    raises [EOFError].  The third component is the exception that leaves
    the loop, if one does. *)
Fixpoint loop (self : ConversationLoop) (stdin : list (result string))
  : list event * ConversationLoop * option exn :=
  match stdin with
  | [] =>
      let '(out, self', _) := iteration self (Raise end_of_input) in
      (out, self', None)
  | line :: rest =>
      let '(out, self', c) := iteration self line in
      match c with
      | Continue =>
          let '(out', self'', r) := loop self' rest in (out ++ out', self'', r)
      | Break => (out, self', None)
      | Propagate e => (out, self', Some e)
      end
  end.

(** [ConversationLoop.run] *)
Definition run (self : ConversationLoop) (stdin : list (result string))
  : list event * ConversationLoop * option exn :=
  let '(out, self', r) := loop self stdin in (print_welcome ++ out, self', r).

End ConversationLoop.

Arguments ConversationLoop Agent : clear implicits.

(** How the process ends. *)
Inductive exit_status : Type :=
| Exit (code : Z)          (* sys.exit(code) *)
| Uncaught (e : exn).      (* an exception nothing catches *)

Section Main.

(** The client and the agent belong to the framework.  [new_client] is
    what constructing the credential and the client does; [create_agent]
    what [client.create_agent(...)] does. *)
Context {Client Agent : Type} {L : Lower}.
Variable new_client : result Client.
Variable create_agent : Client -> result Agent.
Variable agent_tools : Agent -> list tool.
Variable run_stream : Agent -> string -> stream * Agent.

(** [main()]: the trace and the value returned (or the exception that
    leaves it).  [environ] is [os.environ]. *)
Definition main (environ : gmap string string) (stdin : list (result string))
  : list event * result Z :=
  if not_set (environ !! AZURE_OPENAI_ENDPOINT) then
    (print "Error: AZURE_OPENAI_ENDPOINT environment variable not set" ++
     print "Set it with: export AZURE_OPENAI_ENDPOINT='https://your-resource.openai.azure.com/'",
     Return 1%Z)
  else if not_set (environ !! AZURE_OPENAI_DEPLOYMENT_NAME) then
    (print "Error: AZURE_OPENAI_DEPLOYMENT_NAME environment variable not set" ++
     print "Set it with: export AZURE_OPENAI_DEPLOYMENT_NAME='gpt-4o-mini'",
     Return 1%Z)
  else
    match new_client with
    | Raise e =>
        if is_Exception e
        then ([NewClient] ++
              print ("Error connecting to Azure OpenAI: " +:+ exn_str e) ++
              print "Make sure you've run 'az login' first",
              Return 1%Z)
        else ([NewClient], Raise e)
    | Return client =>
        let tools := ["get_current_datetime"; "calculate"] in
        match create_agent client with
        | Raise e => ([NewClient; CreateAgent "ChatBot" tools], Raise e)
        | Return a =>
            let '(out, _, r) := run agent_tools run_stream (init a) stdin in
            ([NewClient; CreateAgent "ChatBot" tools] ++ out,
             match r with
             | Some e => Raise e
             | None => Return 0%Z
             end)
        end
    end.

(** The [if __name__ == "__main__"] block.  The outcome of [main]
    stands for that of [asyncio.run(main())]: a value or an exception
    under [Exception] comes out of the runner as it left [main]; an
    exception outside [Exception] may come out as another one outside
    [Exception] (a cancellation as [KeyboardInterrupt]), which the block
    treats alike. *)
Definition script (environ : gmap string string) (stdin : list (result string))
  : list event * exit_status :=
  match main environ stdin with
  | (out, Return exit_code) => (out, Exit exit_code)
  | (out, Raise e) =>
      if is_Exception e
      then (out ++ print (nl +:+ "Fatal error: " +:+ exn_str e) ++ [Traceback e],
            Exit 1)
      else (out, Uncaught e)
  end.

End Main.

End conversation_loop.

(** ** tool_agent_template.py *)
Module tool_agent_template.

(** The arithmetic of Python's [float] as the tools use it: the four
    operations and the conversion of an integer literal.  The tools are
    written once against this interface and read at two instances:
    [float], the binary64 numbers of the kernel, which is what Python
    computes with, and [Qc], exact rational arithmetic. *)
Class Number (F : Type) : Type := {
  num_add : F -> F -> F;
  num_sub : F -> F -> F;
  num_mul : F -> F -> F;
  num_div : F -> F -> F;
  num_of_Z : Z -> F
}.

(** The [float] of an integer literal [z], for [|z| < 2^63] (the
    literals of the tools are 5, 9 and 32). *)
Definition float_of_Z (z : Z) : float :=
  if (z <? 0)%Z
  then PrimFloat.opp (PrimFloat.of_uint63 (Uint63.of_Z (- z)))
  else PrimFloat.of_uint63 (Uint63.of_Z z).

#[export] Instance binary64 : Number float := {|
  num_add := PrimFloat.add;
  num_sub := PrimFloat.sub;
  num_mul := PrimFloat.mul;
  num_div := PrimFloat.div;
  num_of_Z := float_of_Z
|}.

#[export] Instance rational : Number Qc := {|
  num_add := Qcplus;
  num_sub := Qcminus;
  num_mul := Qcmult;
  num_div := Qcdiv;
  num_of_Z := fun z => Q2Qc (inject_Z z)
|}.

Section Tools.

Context {F : Type} `{Number F}.

(** [calculate_area(length, width)] *)
Definition calculate_area (length width : F) : F :=
  num_mul length width.

(** [convert_temperature(celsius, to_fahrenheit=True)].  An argument
    left out at the call is [None] and takes the default. *)
Definition convert_temperature (celsius : F) (to_fahrenheit : option bool) : F :=
  if default true to_fahrenheit
  then num_add (num_div (num_mul celsius (num_of_Z 9)) (num_of_Z 5)) (num_of_Z 32)
  else num_div (num_mul (num_sub celsius (num_of_Z 32)) (num_of_Z 5)) (num_of_Z 9).

End Tools.

(** [range(n)] *)
Definition range (n : Z) : list Z := seqZ 0 n.

(** [search_mock(query, max_results=5)]: a list of dicts. *)
Definition search_mock (query : string) (max_results : option Z)
  : list (gmap string string) :=
  map (fun i : Z =>
         {[ "title" := "Result " +:+ str_of_Z (i + 1) +:+ " for '" +:+ query +:+ "'";
            "snippet" := "This is a sample result for your search query." ]})
      (range (Z.min (default 5%Z max_results) 3)).

(** A point where a coroutine waits: [await asyncio.sleep(seconds)]. *)
Inductive suspension : Type :=
| Sleep (seconds : float).

(** [async_fetch_data(url)]: the waits of the coroutine, in order, and
    the string it returns.  The delay is the [float] nearest to 0.1. *)
Definition async_fetch_data (url : string) : list suspension * string :=
  ([Sleep 0x1.999999999999ap-4%float], "Mock data from " +:+ url).

(** What [agent.run(query)] returns: [result.text] and
    [result.tool_calls]. *)
Record run_result : Type := mk_run_result
  { text : string; tool_calls : list tool_call }.

Definition test_queries : list string :=
  [ "What time is it right now?";
    "What's the area of a rectangle that's 5 meters by 3 meters?";
    "Convert 25 degrees Celsius to Fahrenheit";
    "Search for information about Python programming";
    "Fetch data from https://example.com/api/data" ].

Section Main.

Context {Client Agent : Type}.
Variable new_client : result Client.
Variable create_agent : Client -> result Agent.
Variable agent_tools : Agent -> list tool.
Variable agent_run : Agent -> string -> result run_result * Agent.

(** The body of [for query in test_queries], for one query. *)
Definition ask (a : Agent) (query : string) : list event * result unit * Agent :=
  let before := print (nl +:+ nl +:+ "User: " +:+ query) ++ [AgentRun query] in
  match agent_run a query with
  | (Raise e, a') => (before, Raise e, a')
  | (Return r, a') =>
      (before ++ print ("Agent: " +:+ text r) ++
       match tool_calls r with
       | [] => []
       | calls =>
           print (nl +:+ "  Tools called:") ++
           flat_map (fun c => print ("    - " +:+ call_name c +:+ "("
                                     +:+ call_arguments c +:+ ")")) calls
       end,
       Return tt, a')
  end.

Fixpoint ask_all (a : Agent) (queries : list string) : list event * result unit :=
  match queries with
  | [] => ([], Return tt)
  | query :: rest =>
      match ask a query with
      | (out, Raise e, _) => (out, Raise e)
      | (out, Return _, a') =>
          let '(out', r) := ask_all a' rest in (out ++ out', r)
      end
  end.

(** [main()] *)
Definition main (environ : gmap string string) : list event * result unit :=
  if not_set (environ !! AZURE_OPENAI_ENDPOINT) then
    (print "Error: AZURE_OPENAI_ENDPOINT environment variable not set", Return tt)
  else if not_set (environ !! AZURE_OPENAI_DEPLOYMENT_NAME) then
    (print "Error: AZURE_OPENAI_DEPLOYMENT_NAME environment variable not set",
     Return tt)
  else
    match new_client with
    | Raise e =>
        if is_Exception e
        then ([NewClient] ++
              print ("Error connecting to Azure OpenAI: " +:+ exn_str e) ++
              print "Make sure you've run 'az login' first",
              Return tt)
        else ([NewClient], Raise e)
    | Return client =>
        let tools := ["get_current_time"; "calculate_area"; "convert_temperature";
                      "search_mock"; "async_fetch_data"] in
        let connected := [NewClient] ++ print "✓ Connected to Azure OpenAI"
                           ++ [CreateAgent "ToolBot" tools] in
        match create_agent client with
        | Raise e => (connected, Raise e)
        | Return a =>
            let '(out, r) := ask_all a test_queries in
            (connected ++
             print "✓ Agent created with tools" ++
             print ("  Available tools: "
                    +:+ str_of_Z (Z.of_nat (length (agent_tools a)))) ++
             print (nl +:+ str_repeat "=" 50) ++
             print "Testing agent with various queries..." ++
             print (str_repeat "=" 50) ++
             out, r)
        end
    end.

(** The [if __name__ == "__main__"] block.  [None]: the script runs to
    its end; [Some e]: [e] leaves it uncaught. *)
Definition script (environ : gmap string string) : list event * option exn :=
  let banner := print "Microsoft Agent Framework - Tool Agent Template"
                  ++ print (str_repeat "=" 50) in
  match main environ with
  | (out, Return _) => (banner ++ out, None)
  | (out, Raise e) =>
      match exn_cls e with
      | KeyboardInterrupt =>
          (banner ++ out ++ print (nl +:+ nl +:+ "Execution cancelled by user"),
           None)
      | EOFError | Exception =>
          (banner ++ out ++ print (nl +:+ nl +:+ "Error: " +:+ exn_str e)
                  ++ [Traceback e], None)
      | BaseException => (banner ++ out, Some e)
      end
  end.

End Main.

End tool_agent_template.

(** ** basic_agent_template.py *)
Module basic_agent_template.

Section Main.

Context {Client Agent : Type}.
Variable new_client : result Client.
Variable create_agent : Client -> result Agent.
(** [agent.run(message)]: the text of the result, and the agent after
    the call. *)
Variable agent_run : Agent -> string -> result string * Agent.

(** [result = await agent.run(message)] followed by the [print] of its
    text. *)
Definition ask (a : Agent) (message : string) : list event * result unit * Agent :=
  match agent_run a message with
  | (Raise e, a') => ([AgentRun message], Raise e, a')
  | (Return text, a') =>
      ([AgentRun message] ++ print ("Agent: " +:+ text), Return tt, a')
  end.

(** [main()] *)
Definition main (environ : gmap string string) : list event * result unit :=
  if not_set (environ !! AZURE_OPENAI_ENDPOINT) then
    (print "Error: AZURE_OPENAI_ENDPOINT environment variable not set" ++
     print "Set it with: export AZURE_OPENAI_ENDPOINT='https://your-resource.openai.azure.com/'",
     Return tt)
  else if not_set (environ !! AZURE_OPENAI_DEPLOYMENT_NAME) then
    (print "Error: AZURE_OPENAI_DEPLOYMENT_NAME environment variable not set" ++
     print "Set it with: export AZURE_OPENAI_DEPLOYMENT_NAME='gpt-4o-mini'",
     Return tt)
  else
    match new_client with
    | Raise e =>
        if is_Exception e
        then ([NewClient] ++
              print ("Error connecting to Azure OpenAI: " +:+ exn_str e) ++
              print "Make sure you've run 'az login' first",
              Return tt)
        else ([NewClient], Raise e)
    | Return client =>
        let connected := [NewClient] ++ print "✓ Connected to Azure OpenAI"
                           ++ [CreateAgent "Assistant" []] in
        match create_agent client with
        | Raise e => (connected, Raise e)
        | Return a =>
            let out0 :=
              connected ++ print "✓ Agent created" ++
              print (nl +:+ str_repeat "=" 50) ++
              print "Testing agent with a simple query..." ++
              print (str_repeat "=" 50 +:+ nl) in
            match ask a "Hello! What can you help me with?" with
            | (out1, Raise e, _) => (out0 ++ out1, Raise e)
            | (out1, Return _, a1) =>
                let out1' :=
                  out0 ++ out1 ++
                  print (nl +:+ str_repeat "=" 50) ++
                  print "Testing multi-turn conversation..." ++
                  print (str_repeat "=" 50 +:+ nl) in
                match ask a1 "My name is Alice and I like programming." with
                | (out2, Raise e, _) => (out1' ++ out2, Raise e)
                | (out2, Return _, a2) =>
                    match ask a2 "What's my name and what do I like?" with
                    | (out3, r, _) => (out1' ++ out2 ++ out3, r)
                    end
                end
            end
        end
    end.

(** The [if __name__ == "__main__"] block.  [None]: the script runs to
    its end; [Some e]: [e] leaves it uncaught. *)
Definition script (environ : gmap string string) : list event * option exn :=
  let banner := print "Microsoft Agent Framework - Basic Agent Template"
                  ++ print (str_repeat "=" 50) in
  match main environ with
  | (out, Return _) => (banner ++ out, None)
  | (out, Raise e) =>
      match exn_cls e with
      | KeyboardInterrupt =>
          (banner ++ out ++ print (nl +:+ nl +:+ "Execution cancelled by user"),
           None)
      | EOFError | Exception =>
          (banner ++ out ++ print (nl +:+ nl +:+ "Error: " +:+ exn_str e)
                  ++ [Traceback e], None)
      | BaseException => (banner ++ out, Some e)
      end
  end.

End Main.

End basic_agent_template.

(** ** Observations on traces *)

(** The messages passed to [agent.run_stream], in the order of the
    calls. *)
Fixpoint streamed (out : list event) : list string :=
  match out with
  | [] => []
  | RunStream message :: out' => message :: streamed out'
  | _ :: out' => streamed out'
  end.


(** * Properties *)

Import conversation_loop.

(** ** The expression evaluator *)

Lemma char_in_elem_of (c : ascii) (chars : list ascii) :
  char_in c chars = true ↔ c ∈ chars.
Proof.
  unfold char_in. rewrite existsb_exists. split.
  - intros (x & Hx & Heq). apply Ascii.eqb_eq in Heq. subst x.
    by apply list_elem_of_In.
  - intros Hc. exists c. split; [by apply list_elem_of_In | apply Ascii.eqb_refl].
Qed.

Lemma forallb_false_elem_of {A : Type} (p : A → bool) (l : list A) :
  forallb p l = false ↔ ∃ x, x ∈ l ∧ p x = false.
Proof.
  induction l as [|a l IH]; simpl.
  - split; [discriminate | intros (x & Hx & _); by apply elem_of_nil in Hx].
  - rewrite andb_false_iff, IH. split.
    + intros [Ha | (x & Hx & Hp)].
      * exists a. split; [apply list_elem_of_here | done].
      * exists x. split; [by apply list_elem_of_further | done].
    + intros (x & Hx & Hp). apply elem_of_cons in Hx as [-> | Hx]; [by left |].
      right. by exists x.
Qed.

(** The test of [calculate] fails exactly on the expressions with a
    character outside the safe set. *)
Lemma invalid_iff (expression : string) :
  forallb (fun c => char_in c allowed_chars) (list_ascii_of_string expression)
    = false
  ↔ ∃ c, c ∈ list_ascii_of_string expression
         ∧ c ∉ list_ascii_of_string "0123456789+-*/(). ".
Proof.
  rewrite forallb_false_elem_of. split; intros (c & Hc & Hn); exists c; split;
    try done.
  - intros Hin. apply char_in_elem_of in Hin. unfold allowed_chars in Hn.
    congruence.
  - destruct (char_in c allowed_chars) eqn:E; [| done].
    apply char_in_elem_of in E. done.
Qed.

(** With every character in the safe set, the formatted result does not
    start with an [E]. *)
Lemma formatted_is_not_the_error (expression text : string) :
  forallb (fun c => char_in c allowed_chars) (list_ascii_of_string expression)
    = true →
  expression +:+ " = " +:+ text ≠ invalid_characters.
Proof.
  destruct expression as [|c s]; [done |].
  simpl. intros Hall Heq. apply andb_prop in Hall as [Hc _].
  injection Heq as -> _. done.
Qed.

(** C1: an expression with a character outside the safe set
    "0123456789+-*/(). " is rejected by [calculate] with the message
    "Error: Expression contains invalid characters" and [eval] is not
    called (the trace is empty); and [calculate] returns that message for
    no other expression, whatever [eval] does. *)
Theorem calculate_rejects_exactly_invalid
    (eval : string → result string) (expression : string) :
  ((∃ c, c ∈ list_ascii_of_string expression
         ∧ c ∉ list_ascii_of_string "0123456789+-*/(). ") →
   calculate eval expression
   = ([], Return "Error: Expression contains invalid characters"))
  ∧ ((calculate eval expression).2
     = Return "Error: Expression contains invalid characters" →
     ∃ c, c ∈ list_ascii_of_string expression
          ∧ c ∉ list_ascii_of_string "0123456789+-*/(). ").
Proof.
  unfold calculate. split.
  - intros Hbad. apply invalid_iff in Hbad. by rewrite Hbad.
  - destruct (forallb _ _) eqn:Hall; simpl.
    + intros Hret. exfalso.
      destruct (eval expression) as [text | e]; simpl in Hret.
      * injection Hret as Hret. by apply formatted_is_not_the_error in Hret.
      * destruct (is_Exception e); simpl in Hret; discriminate.
    + intros _. by apply invalid_iff.
Qed.

Lemma calculate_rejects_exactly_invalid_witness :
  calculate (fun _ => Return "4") "2 + x"
  = ([], Return "Error: Expression contains invalid characters").
Proof.
  apply (proj1 (calculate_rejects_exactly_invalid (fun _ => Return "4") "2 + x")).
  exists "x"%char. split.
  - simpl. repeat constructor.
  - intros Hin. apply char_in_elem_of in Hin. vm_compute in Hin. discriminate.
Defined.

(** ** The arithmetic tools *)

Import tool_agent_template.

(** C3: [convert_temperature(25)], the direction left at its default,
    is 77: in binary64 arithmetic, where every intermediate value (225,
    45, 77) is exact, and in rational arithmetic. *)
Theorem convert_temperature_25_is_77 :
  convert_temperature 25%float None = 77%float
  ∧ convert_temperature (Q2Qc 25) None = Q2Qc 77.
Proof.
  split.
  - reflexivity.
  - apply Qc_is_canon. reflexivity.
Qed.

(** C4: [calculate_area(5, 3)] is 15, and [calculate_area(l, w)] is the
    product of [l] and [w] for all [l] and [w], in binary64 and in
    rational arithmetic. *)
Theorem calculate_area_is_the_product :
  calculate_area 5%float 3%float = 15%float
  ∧ calculate_area (Q2Qc 5) (Q2Qc 3) = Q2Qc 15
  ∧ (∀ l w : float, calculate_area l w = (l * w)%float)
  ∧ (∀ l w : Qc, calculate_area l w = (l * w)%Qc).
Proof.
  split; [reflexivity |].
  split; [apply Qc_is_canon; reflexivity |].
  split; reflexivity.
Qed.

(** C9: in exact rational arithmetic the two directions of
    [convert_temperature] are inverse to each other. *)
Theorem convert_temperature_round_trip (t : Qc) :
  convert_temperature (convert_temperature t (Some true)) (Some false) = t
  ∧ convert_temperature (convert_temperature t (Some false)) (Some true) = t.
Proof.
  unfold convert_temperature; simpl.
  split; field; split; discriminate.
Qed.

(** ** The mock search *)

Lemma append_assoc (s1 s2 s3 : string) :
  (s1 +:+ s2) +:+ s3 = s1 +:+ (s2 +:+ s3).
Proof.
  induction s1 as [|c s1 IH]; [done |].
  change (String c ((s1 +:+ s2) +:+ s3) = String c (s1 +:+ (s2 +:+ s3))).
  by f_equal.
Qed.

Lemma range_length (n : Z) : length (range n) = Z.to_nat n.
Proof. unfold range. apply length_seqZ. Qed.

Lemma search_mock_length (query : string) (max_results : Z) :
  length (search_mock query (Some max_results))
  = Z.to_nat (Z.min max_results 3).
Proof. unfold search_mock. rewrite length_map. apply range_length. Qed.

(** C8: [search_mock(query, max_results)] returns [min(max_results, 3)]
    results when [max_results] is not negative, so never more than
    three, and none when [max_results] is zero or negative; every result
    has a ["title"] that contains the query and has a ["snippet"]. *)
Theorem search_mock_results (query : string) (max_results : Z) :
  let results := search_mock query (Some max_results) in
  (0 ≤ max_results → Z.of_nat (length results) = Z.min max_results 3)%Z
  ∧ (length results ≤ 3)%nat
  ∧ (max_results ≤ 0 → results = [])%Z
  ∧ ∀ r, r ∈ results →
      (∃ before after,
          r !! "title" = Some (before +:+ query +:+ after))
      ∧ is_Some (r !! "snippet").
Proof.
  intros results. pose proof (search_mock_length query max_results) as Hlen.
  fold results in Hlen.
  split; [intros Hpos; rewrite Hlen; lia |].
  split; [rewrite Hlen; lia |].
  split; [intros Hneg; apply nil_length_inv; rewrite Hlen; lia |].
  intros r Hr. unfold results, search_mock in Hr.
  apply list_elem_of_fmap in Hr as (i & -> & _). split.
  - exists ("Result " +:+ str_of_Z (i + 1) +:+ " for '"), "'".
    rewrite lookup_insert_eq. f_equal.
    by rewrite !append_assoc.
  - rewrite lookup_insert_ne by done. rewrite lookup_singleton_eq. by eexists.
Qed.

Lemma search_mock_results_witness :
  Z.of_nat (length (search_mock "rocq" (Some 7%Z))) = Z.min 7 3
  ∧ search_mock "rocq" (Some (-2)%Z) = [].
Proof.
  pose proof (search_mock_results "rocq" 7) as (H7 & _).
  pose proof (search_mock_results "rocq" (-2)) as (_ & _ & Hneg & _).
  split; [apply H7; lia | apply Hneg; lia].
Defined.

(** ** The interactive loop *)

Lemma only_stdout_print (text : string) : only_stdout (print text).
Proof. repeat constructor. by eexists. Qed.

Lemma only_stdout_print_end (text : string) : only_stdout (print_end text).
Proof. repeat constructor. by eexists. Qed.

Lemma only_stdout_nil : only_stdout [].
Proof. constructor. Qed.

Lemma only_stdout_cons (text : string) (out : list event) :
  only_stdout out → only_stdout (Stdout text :: out).
Proof. constructor; [by eexists | done]. Qed.

Lemma only_stdout_app (out1 out2 : list event) :
  only_stdout out1 → only_stdout out2 → only_stdout (out1 ++ out2).
Proof. unfold only_stdout. rewrite Forall_app. done. Qed.

Lemma only_stdout_flat_map {A : Type} (f : A → list event) (l : list A) :
  (∀ x, only_stdout (f x)) → only_stdout (flat_map f l).
Proof.
  intros Hf. induction l as [|x l IH]; simpl.
  - constructor.
  - by apply only_stdout_app.
Qed.

Lemma only_stdout_not_forwarded (out : list event) (message : string) :
  only_stdout out → RunStream message ∉ out.
Proof.
  unfold only_stdout. rewrite Forall_forall. intros Hout Hin.
  apply Hout in Hin as (text & Heq). discriminate.
Qed.

Create HintDb trace.
#[local] Hint Resolve only_stdout_nil only_stdout_cons
  only_stdout_print only_stdout_print_end only_stdout_app
  only_stdout_flat_map : trace.

Section Loop.

Context {Agent : Type} {L : Lower}.
Variable agent_tools : Agent → list tool.
Variable run_stream : Agent → string → stream * Agent.

Lemma only_stdout_print_help : only_stdout print_help.
Proof. unfold print_help. auto 10 with trace. Qed.

Lemma only_stdout_goodbye : only_stdout goodbye.
Proof. unfold goodbye. auto with trace. Qed.

Lemma only_stdout_goodbye_eof : only_stdout goodbye_eof.
Proof. unfold goodbye_eof. auto with trace. Qed.

Lemma only_stdout_use_quit : only_stdout use_quit.
Proof. unfold use_quit. auto with trace. Qed.

Lemma only_stdout_unknown_command (command : string) :
  only_stdout (unknown_command command).
Proof. unfold unknown_command. auto with trace. Qed.

Lemma only_stdout_show_tools (self : ConversationLoop Agent) :
  only_stdout (show_tools agent_tools self).
Proof.
  unfold show_tools. destruct (agent_tools (agent self)); auto 10 with trace.
Qed.

Lemma only_stdout_clear_history (self : ConversationLoop Agent) :
  only_stdout (clear_history self).1.
Proof. simpl. auto with trace. Qed.

(** An iteration that ends in [continue] hands the rest of the input to
    the next one. *)
Lemma loop_continue (self self' : ConversationLoop Agent)
    (line : result string) (rest : list (result string)) (out : list event) :
  iteration agent_tools run_stream self line = (out, self', Continue) →
  loop agent_tools run_stream self (line :: rest)
  = (out ++ (loop agent_tools run_stream self' rest).1.1,
     (loop agent_tools run_stream self' rest).1.2,
     (loop agent_tools run_stream self' rest).2).
Proof.
  intros Hit. simpl. rewrite Hit.
  by destruct (loop agent_tools run_stream self' rest) as [[out' self''] r].
Qed.

(** An iteration that ends in [break] ends the loop. *)
Lemma loop_break (self self' : ConversationLoop Agent)
    (line : result string) (rest : list (result string)) (out : list event) :
  iteration agent_tools run_stream self line = (out, self', Break) →
  loop agent_tools run_stream self (line :: rest) = (out, self', None).
Proof. intros Hit. simpl. by rewrite Hit. Qed.

End Loop.

#[local] Hint Resolve only_stdout_print_help only_stdout_goodbye
  only_stdout_goodbye_eof
  only_stdout_use_quit only_stdout_unknown_command only_stdout_show_tools
  only_stdout_clear_history : trace.

(** Refutes membership in an explicit list of distinct constants. *)
Ltac not_listed :=
  let H := fresh "H" in
  rewrite ?elem_of_cons, elem_of_nil; intros H;
  repeat (destruct H as [H|H]; [discriminate H |]); exact H.

(** A line whose lowercase is one of the commands starts with a slash
    and is not empty. *)
Lemma command_starts_with_slash {L : Lower} (s command : string) :
  lower s = command → startswith_slash command = true →
  s ≠ "" ∧ startswith_slash s = true.
Proof.
  intros <- Hslash. rewrite lower_slash in Hslash.
  split; [by destruct s | done].
Qed.

Section LoopClaims.

Context {Agent : Type} {L : Lower}.
Variable agent_tools : Agent → list tool.
Variable run_stream : Agent → string → stream * Agent.

(** C2, as the code has it: the line read is stripped; when what is
    left is not empty and begins with a slash, its lowercase is matched
    against /quit, /exit, /help, /clear and /tools.  /quit and /exit say
    goodbye and leave the loop, /help prints the help, /clear runs
    [clear_history], /tools lists the tools, anything else prints the
    unknown-command message; in none of these cases is the agent called.
    When what is left is not empty and does not begin with a slash it is
    passed to [agent.run_stream]. *)
Theorem command_dispatch (self : ConversationLoop Agent) (raw : string) :
  let user_input := strip raw in
  let command := lower user_input in
  let out := (iteration agent_tools run_stream self (Return raw)).1.1 in
  let self' := (iteration agent_tools run_stream self (Return raw)).1.2 in
  let ctl := (iteration agent_tools run_stream self (Return raw)).2 in
  user_input ≠ "" →
  (startswith_slash user_input = true →
     (∀ message, RunStream message ∉ out)
     ∧ agent self' = agent self
     ∧ (command ∈ ["/quit"; "/exit"] →
        out = [Stdout "You: "] ++ goodbye ∧ self' = self ∧ ctl = Break)
     ∧ (command = "/help" →
        out = [Stdout "You: "] ++ print_help ∧ self' = self ∧ ctl = Continue)
     ∧ (command = "/clear" →
        out = [Stdout "You: "] ++ (clear_history self).1
        ∧ self' = (clear_history self).2 ∧ ctl = Continue)
     ∧ (command = "/tools" →
        out = [Stdout "You: "] ++ show_tools agent_tools self
        ∧ self' = self ∧ ctl = Continue)
     ∧ (command ∉ ["/quit"; "/exit"; "/help"; "/clear"; "/tools"] →
        out = [Stdout "You: "] ++ unknown_command command
        ∧ self' = self ∧ ctl = Continue))
  ∧ (startswith_slash user_input = false → RunStream user_input ∈ out).
Proof.
  intros user_input command out self' ctl Hne.
  unfold out, self', ctl, iteration. fold user_input. fold command.
  destruct (String.eqb_spec user_input "") as [Hempty|_]; [by destruct Hne |].
  destruct (startswith_slash user_input) eqn:Hslash;
    (split; [| intros Hx]; try discriminate; try (intros Hx; discriminate));
    [intros _ |].
  - clearbody command.
    destruct (String.eqb_spec command "/quit") as [Hq|Hq];
    [| destruct (String.eqb_spec command "/exit") as [He|He];
       [| destruct (String.eqb_spec command "/help") as [Hh|Hh];
          [| destruct (String.eqb_spec command "/clear") as [Hc|Hc];
             [| destruct (String.eqb_spec command "/tools") as [Ht|Ht]]]]];
    cbn [orb fst snd clear_history];
    (split; [intros message; apply only_stdout_not_forwarded;
             auto with trace |]);
    (split; [done |]).
    all: repeat match goal with |- _ ∧ _ => split end; intros Hcommand;
      first [ by repeat split
            | exfalso; congruence
            | exfalso; revert Hcommand; rewrite !elem_of_cons, elem_of_nil;
              tauto ].
  - destruct (run_stream (agent self) user_input) as [s agent'].
    destruct (stream_end s) as [e|]; [destruct (is_Exception e) |];
      cbn [fst snd]; [set_solver | | set_solver].
    unfold outer_handlers. destruct (exn_cls e); cbn [fst snd]; set_solver.
Qed.

(** C6: when the stream of a forwarded message ends in an exception
    under [Exception], the iteration prints the error, ends in
    [continue] (the exception does not leave the loop) with
    [conversation_count] as it was, and the loop goes on with the rest of
    the input. *)
Theorem request_failure_is_caught (self : ConversationLoop Agent)
    (raw : string) (rest : list (result string))
    (s : stream) (agent' : Agent) (e : exn) :
  strip raw ≠ "" →
  startswith_slash (strip raw) = false →
  run_stream (agent self) (strip raw) = (s, agent') →
  stream_end s = Some e →
  is_Exception e = true →
  ∃ out self',
    iteration agent_tools run_stream self (Return raw)
    = (out ++ print (nl +:+ "[Error: " +:+ exn_str e +:+ "]"), self', Continue)
    ∧ RunStream (strip raw) ∈ out
    ∧ conversation_count self' = conversation_count self
    ∧ loop agent_tools run_stream self (Return raw :: rest)
      = ((out ++ print (nl +:+ "[Error: " +:+ exn_str e +:+ "]"))
           ++ (loop agent_tools run_stream self' rest).1.1,
         (loop agent_tools run_stream self' rest).1.2,
         (loop agent_tools run_stream self' rest).2).
Proof.
  intros Hne Hslash Hrun Hend Hexn.
  assert (Hit : iteration agent_tools run_stream self (Return raw)
    = (([Stdout "You: "] ++ print_end "Agent: " ++ [RunStream (strip raw)]
          ++ flat_map print_end (chunks s))
         ++ print (nl +:+ "[Error: " +:+ exn_str e +:+ "]"),
       {| agent := agent'; conversation_count := conversation_count self |},
       Continue)).
  { unfold iteration.
    destruct (String.eqb_spec (strip raw) "") as [Hempty|_]; [by destruct Hne |].
    by rewrite Hslash, Hrun, Hend, Hexn. }
  eexists _, _. split; [exact Hit |].
  split; [set_solver |]. split; [done |].
  by apply loop_continue.
Qed.

(** C7, as the code has it: a [KeyboardInterrupt] raised by [input] or
    while the response is streamed is caught, the message
    "Use /quit to exit properly." is printed, [conversation_count] stays
    as it was, and the loop does not end: it goes on with the rest of the
    input. *)
Theorem keyboard_interrupt_continues (self : ConversationLoop Agent)
    (e : exn) (rest : list (result string)) :
  exn_cls e = KeyboardInterrupt →
  (iteration agent_tools run_stream self (Raise e)
   = ([Stdout "You: "] ++ use_quit, self, Continue)
   ∧ loop agent_tools run_stream self (Raise e :: rest)
     = (([Stdout "You: "] ++ use_quit)
          ++ (loop agent_tools run_stream self rest).1.1,
        (loop agent_tools run_stream self rest).1.2,
        (loop agent_tools run_stream self rest).2))
  ∧ ∀ raw s agent',
      strip raw ≠ "" →
      startswith_slash (strip raw) = false →
      run_stream (agent self) (strip raw) = (s, agent') →
      stream_end s = Some e →
      ∃ out self',
        iteration agent_tools run_stream self (Return raw)
        = (out ++ use_quit, self', Continue)
        ∧ conversation_count self' = conversation_count self
        ∧ loop agent_tools run_stream self (Return raw :: rest)
          = ((out ++ use_quit) ++ (loop agent_tools run_stream self' rest).1.1,
             (loop agent_tools run_stream self' rest).1.2,
             (loop agent_tools run_stream self' rest).2).
Proof.
  intros Hcls.
  assert (Hin : iteration agent_tools run_stream self (Raise e)
                = ([Stdout "You: "] ++ use_quit, self, Continue)).
  { unfold iteration, outer_handlers. by rewrite Hcls. }
  split; [split; [exact Hin | by apply loop_continue] |].
  intros raw s agent' Hne Hslash Hrun Hend.
  assert (Hit : iteration agent_tools run_stream self (Return raw)
    = (([Stdout "You: "] ++ print_end "Agent: " ++ [RunStream (strip raw)]
          ++ flat_map print_end (chunks s)) ++ use_quit,
       {| agent := agent'; conversation_count := conversation_count self |},
       Continue)).
  { unfold iteration, outer_handlers, is_Exception.
    destruct (String.eqb_spec (strip raw) "") as [Hempty|_]; [by destruct Hne |].
    by rewrite Hslash, Hrun, Hend, Hcls. }
  eexists _, _. split; [exact Hit |]. split; [done |].
  by apply loop_continue.
Qed.

(** C10: [clear_history] sets [conversation_count] to 0 and keeps the
    [agent] field as it is; it only prints, so the agent is not called;
    and this is all the /clear command does to the loop object. *)
Theorem clear_history_frame (self : ConversationLoop Agent) :
  conversation_count (clear_history self).2 = 0%Z
  ∧ agent (clear_history self).2 = agent self
  ∧ only_stdout (clear_history self).1
  ∧ ∀ raw, lower (strip raw) = "/clear" →
      (iteration agent_tools run_stream self (Return raw)).1.2
      = {| agent := agent self; conversation_count := 0 |}.
Proof.
  split; [done |]. split; [done |]. split; [apply only_stdout_clear_history |].
  intros raw Hclear.
  destruct (command_starts_with_slash _ _ Hclear eq_refl) as [Hne Hslash].
  unfold iteration.
  destruct (String.eqb_spec (strip raw) "") as [Hempty|_]; [by destruct Hne |].
  by rewrite Hslash, Hclear.
Qed.

End LoopClaims.

Lemma command_dispatch_witness :
  (iteration (L := ascii_only) (fun _ : unit => []) (fun a _ => (mk_stream [] None, a))
             (init tt) (Return "  /Help ")).1.1
  = [Stdout "You: "] ++ print_help
  ∧ RunStream "hello"
    ∈ (iteration (L := ascii_only) (fun _ : unit => []) (fun a _ => (mk_stream [] None, a))
                 (init tt) (Return " hello ")).1.1.
Proof.
  split.
  - assert (Hne : strip "  /Help " ≠ "") by (vm_compute; discriminate).
    destruct (command_dispatch (L := ascii_only) (fun _ : unit => [])
                (fun a _ => (mk_stream [] None, a)) (init tt) "  /Help " Hne)
      as [Hcmd _].
    destruct (Hcmd eq_refl) as (_ & _ & _ & Hhelp & _).
    destruct (Hhelp eq_refl) as (Hout & _). exact Hout.
  - assert (Hne : strip " hello " ≠ "") by (vm_compute; discriminate).
    destruct (command_dispatch (L := ascii_only) (fun _ : unit => [])
                (fun a _ => (mk_stream [] None, a)) (init tt) " hello " Hne)
      as [_ Hfwd].
    exact (Hfwd eq_refl).
Defined.

(** C2 as stated fails on /exit: the line begins with a slash and is
    none of /help, /clear, /tools and /quit, yet no unknown-command
    message is printed; the loop says goodbye and ends, as for /quit. *)
Lemma exit_is_not_an_unknown_command :
  let it := iteration (L := ascii_only) (fun _ : unit => []) (fun a _ => (mk_stream [] None, a))
                      (init tt) (Return "/exit") in
  startswith_slash (strip "/exit") = true
  ∧ (ascii_lower (strip "/exit") ∉ ["/help"; "/clear"; "/tools"; "/quit"])
  ∧ (Stdout ("Unknown command: /exit" +:+ nl) ∉ it.1.1)
  ∧ it = ([Stdout "You: "] ++ goodbye, init tt, Break).
Proof.
  intros it.
  assert (Hit : it = ([Stdout "You: "] ++ goodbye, init tt, Break))
    by reflexivity.
  rewrite Hit. split; [reflexivity |].
  split; [change (ascii_lower (strip "/exit")) with "/exit"; not_listed |].
  split; [| reflexivity].
  cbn [fst]. unfold goodbye, print. simpl. not_listed.
Qed.

Lemma request_failure_is_caught_witness :
  ∃ out self',
    iteration (L := ascii_only) (fun _ : unit => [])
      (fun a _ => (mk_stream ["Hi"] (Some (mk_exn Exception "timed out")), a))
      {| agent := tt; conversation_count := 2 |} (Return "hello")
    = (out ++ print (nl +:+ "[Error: timed out]"), self', Continue)
    ∧ conversation_count self' = 2%Z.
Proof.
  destruct (request_failure_is_caught (L := ascii_only) (fun _ : unit => [])
      (fun a _ => (mk_stream ["Hi"] (Some (mk_exn Exception "timed out")), a))
      {| agent := tt; conversation_count := 2 |} "hello" []
      (mk_stream ["Hi"] (Some (mk_exn Exception "timed out"))) tt
      (mk_exn Exception "timed out"))
    as (out & self' & Hit & _ & Hcount & _).
  - vm_compute. discriminate.
  - reflexivity.
  - reflexivity.
  - reflexivity.
  - reflexivity.
  - exists out, self'. split; [exact Hit | exact Hcount].
Defined.

(** C7 as stated fails: after a [KeyboardInterrupt] at the prompt the
    iteration ends in [continue], not [break], and the loop serves the
    next line (here /help); it ends only when the input runs out, with
    the farewell of the [EOFError] handler. *)
Lemma keyboard_interrupt_does_not_end_the_loop :
  (iteration (L := ascii_only) (fun _ : unit => []) (fun a _ => (mk_stream [] None, a))
             (init tt) (Raise (mk_exn KeyboardInterrupt ""))).2 ≠ Break
  ∧ loop (L := ascii_only) (fun _ : unit => []) (fun a _ => (mk_stream [] None, a)) (init tt)
         [Raise (mk_exn KeyboardInterrupt ""); Return "/help"]
    = ([Stdout "You: "] ++ use_quit ++ [Stdout "You: "] ++ print_help
         ++ [Stdout "You: "] ++ goodbye_eof,
       init tt, None).
Proof. split; [discriminate | reflexivity]. Qed.

Lemma keyboard_interrupt_continues_witness :
  iteration (L := ascii_only) (fun _ : unit => []) (fun a _ => (mk_stream [] None, a))
            (init tt) (Raise (mk_exn KeyboardInterrupt ""))
  = ([Stdout "You: "] ++ use_quit, init tt, Continue).
Proof.
  destruct (keyboard_interrupt_continues (L := ascii_only) (fun _ : unit => [])
              (fun a _ => (mk_stream [] None, a)) (init tt)
              (mk_exn KeyboardInterrupt "") [] eq_refl) as [[Hit _] _].
  exact Hit.
Defined.

Lemma clear_history_frame_witness :
  (iteration (L := ascii_only) (fun _ : unit => []) (fun a _ => (mk_stream [] None, a))
             {| agent := tt; conversation_count := 4 |} (Return " /CLEAR ")).1.2
  = {| agent := tt; conversation_count := 0 |}.
Proof.
  destruct (clear_history_frame (L := ascii_only) (fun _ : unit => [])
              (fun a _ => (mk_stream [] None, a))
              {| agent := tt; conversation_count := 4 |}) as (_ & _ & _ & Hclear).
  apply (Hclear " /CLEAR "). reflexivity.
Defined.

(** *** The commands under every [Lower] *)

(** On the ASCII commands every [Lower] gives the same lowercase, so
    what the examples above compute with [ascii_only] is what the loop
    does whatever the case tables say elsewhere.  The second lemma has
    /QUIT between two no-break spaces: [strip] removes them and the loop
    says goodbye. *)
Lemma exit_says_goodbye (Agent : Type) {L : Lower}
    (agent_tools : Agent → list tool)
    (run_stream : Agent → string → stream * Agent)
    (self : ConversationLoop Agent) :
  iteration agent_tools run_stream self (Return "/exit")
  = ([Stdout "You: "] ++ goodbye, self, Break).
Proof.
  unfold iteration. change (strip "/exit") with "/exit".
  by rewrite (lower_ascii "/exit" eq_refl).
Qed.

Lemma wrapped_quit_says_goodbye (Agent : Type) {L : Lower}
    (agent_tools : Agent → list tool)
    (run_stream : Agent → string → stream * Agent)
    (self : ConversationLoop Agent) :
  iteration agent_tools run_stream self
    (Return (string_of_list_ascii
               (utf8 0xA0 ++ list_ascii_of_string "/QUIT" ++ utf8 0xA0)))
  = ([Stdout "You: "] ++ goodbye, self, Break).
Proof.
  unfold iteration.
  change (strip (string_of_list_ascii
                   (utf8 0xA0 ++ list_ascii_of_string "/QUIT" ++ utf8 0xA0)))
    with "/QUIT".
  by rewrite (lower_ascii "/QUIT" eq_refl).
Qed.

(** ** The start-up checks *)

Lemma not_set_iff (v : option string) :
  not_set v = true ↔ v = None ∨ v = Some "".
Proof.
  destruct v as [s|]; simpl.
  - rewrite String.eqb_eq. split; [intros ->; by right | by intros [|[= ->]]].
  - split; [by left | done].
Qed.

(** A trace of prints constructs neither the client nor the agent. *)
Lemma only_stdout_no_construction (out : list event) :
  only_stdout out →
  (NewClient ∉ out) ∧ ∀ name tools, CreateAgent name tools ∉ out.
Proof.
  unfold only_stdout. rewrite Forall_forall. intros Hout.
  split; [| intros name tools]; intros Hin;
    apply Hout in Hin as (text & Heq); discriminate.
Qed.

(** C5: when AZURE_OPENAI_ENDPOINT or AZURE_OPENAI_DEPLOYMENT_NAME is
    missing from the environment or empty, [main] of the conversation
    loop, of the tool template and of the basic template prints a line
    starting with "Error: " and returns (1 in the conversation loop,
    whose script then exits with status 1); it prints and does nothing
    else, so neither the client nor the agent is constructed. *)
Theorem main_checks_environment (environ : gmap string string)
    (Client Agent : Type) {L : Lower}
    (new_client : result Client) (create_agent : Client → result Agent)
    (agent_tools : Agent → list tool)
    (run_stream : Agent → string → stream * Agent)
    (agent_run : Agent → string → result run_result * Agent)
    (agent_ask : Agent → string → result string * Agent)
    (stdin : list (result string)) :
  environ !! "AZURE_OPENAI_ENDPOINT" = None
  ∨ environ !! "AZURE_OPENAI_ENDPOINT" = Some ""
  ∨ environ !! "AZURE_OPENAI_DEPLOYMENT_NAME" = None
  ∨ environ !! "AZURE_OPENAI_DEPLOYMENT_NAME" = Some "" →
  (∃ message rest,
      conversation_loop.main new_client create_agent agent_tools run_stream
        environ stdin
      = (Stdout ("Error: " +:+ message) :: rest, Return 1%Z)
      ∧ conversation_loop.script new_client create_agent agent_tools run_stream
          environ stdin
        = (Stdout ("Error: " +:+ message) :: rest, Exit 1)
      ∧ only_stdout rest
      ∧ (NewClient ∉ rest) ∧ ∀ name tools, CreateAgent name tools ∉ rest)
  ∧ (∃ message rest,
      tool_agent_template.main new_client create_agent agent_tools agent_run
        environ
      = (Stdout ("Error: " +:+ message) :: rest, Return tt)
      ∧ only_stdout rest
      ∧ (NewClient ∉ rest) ∧ ∀ name tools, CreateAgent name tools ∉ rest)
  ∧ (∃ message rest,
      basic_agent_template.main new_client create_agent agent_ask environ
      = (Stdout ("Error: " +:+ message) :: rest, Return tt)
      ∧ only_stdout rest
      ∧ (NewClient ∉ rest) ∧ ∀ name tools, CreateAgent name tools ∉ rest).
Proof.
  intros Hmissing.
  assert (Hcheck :
    not_set (environ !! AZURE_OPENAI_ENDPOINT) = true
    ∨ (not_set (environ !! AZURE_OPENAI_ENDPOINT) = false
       ∧ not_set (environ !! AZURE_OPENAI_DEPLOYMENT_NAME) = true)).
  { destruct (not_set (environ !! AZURE_OPENAI_ENDPOINT)) eqn:Hendpoint;
      [by left | right; split; [done |]].
    apply not_set_iff.
    destruct Hmissing as [H | [H | H]]; [| | exact H];
      (assert (Hset : not_set (environ !! AZURE_OPENAI_ENDPOINT) = true)
         by (apply not_set_iff; auto)); congruence. }
  unfold conversation_loop.script, conversation_loop.main,
    tool_agent_template.main, basic_agent_template.main.
  destruct Hcheck as [-> | [-> ->]];
    (repeat split; eexists _, _;
     repeat split;
       try apply only_stdout_no_construction; auto with trace).
Qed.

Lemma main_checks_environment_witness :
  ∃ message rest,
    conversation_loop.main (L := ascii_only)
      (Raise (mk_exn Exception "no login"))
      (fun _ : unit => Return tt) (fun _ : unit => [])
      (fun a _ => (mk_stream [] None, a))
      {[ "AZURE_OPENAI_ENDPOINT" := "https://example.openai.azure.com/" ]}
      [Return "hello"]
    = (Stdout ("Error: " +:+ message) :: rest, Return 1%Z)
    ∧ only_stdout rest.
Proof.
  destruct (main_checks_environment (L := ascii_only)
      {[ "AZURE_OPENAI_ENDPOINT" := "https://example.openai.azure.com/" ]}
      unit unit (Raise (mk_exn Exception "no login"))
      (fun _ => Return tt) (fun _ => [])
      (fun a _ => (mk_stream [] None, a))
      (fun a _ => (Return (mk_run_result "" []), a))
      (fun a _ => (Return "", a))
      [Return "hello"])
    as [(message & rest & Hmain & _ & Hout & _) _].
  - right. right. left. reflexivity.
  - exists message, rest. split; [exact Hmain | exact Hout].
Defined.

(** ** Interrupts outside the loop *)

(** In the two templates a [KeyboardInterrupt] that leaves [main] is
    caught at the entry point, which prints a message and lets the script
    end. *)
Lemma template_interrupt_is_reported (environ : gmap string string)
    (Client Agent : Type)
    (new_client : result Client) (create_agent : Client → result Agent)
    (agent_ask : Agent → string → result string * Agent)
    (out : list event) (e : exn) :
  basic_agent_template.main new_client create_agent agent_ask environ
  = (out, Raise e) →
  exn_cls e = KeyboardInterrupt →
  basic_agent_template.script new_client create_agent agent_ask environ
  = (print "Microsoft Agent Framework - Basic Agent Template"
       ++ print (str_repeat "=" 50) ++ out
       ++ print (nl +:+ nl +:+ "Execution cancelled by user"),
     None).
Proof.
  intros Hmain Hcls. unfold basic_agent_template.script.
  rewrite Hmain, Hcls. by rewrite <- !app_assoc.
Qed.

(** The end of the input ends the conversation loop with the farewell
    of the [EOFError] handler. *)
Lemma end_of_input_ends_the_loop (Agent : Type) {L : Lower}
    (agent_tools : Agent → list tool)
    (run_stream : Agent → string → stream * Agent)
    (self : ConversationLoop Agent) (e : exn) (rest : list (result string)) :
  exn_cls e = EOFError →
  loop agent_tools run_stream self (Raise e :: rest)
  = ([Stdout "You: "] ++ goodbye_eof, self, None).
Proof.
  intros Hcls. apply loop_break. unfold iteration, outer_handlers.
  by rewrite Hcls.
Qed.

(** ** Binary64 and the round trip *)

(** The round trip of C9 is a fact of exact arithmetic: in binary64,
    converting 0x1.999999999999ap-4 (the [float] nearest to 0.1) to
    Fahrenheit and back does not give the value back. *)
Lemma round_trip_is_not_exact_in_binary64 :
  convert_temperature
    (convert_temperature 0x1.999999999999ap-4%float (Some true)) (Some false)
  ≠ 0x1.999999999999ap-4%float.
Proof.
  intros Heq.
  assert (Hb : PrimFloat.eqb
                 (convert_temperature
                    (convert_temperature 0x1.999999999999ap-4%float (Some true))
                    (Some false))
                 0x1.999999999999ap-4%float = true).
  { rewrite Heq. reflexivity. }
  vm_compute in Hb. discriminate Hb.
Qed.

(** * Further properties of the scripts *)

(** ** [calculate] and [eval] *)

Lemma valid_iff (expression : string) :
  forallb (fun c => char_in c allowed_chars) (list_ascii_of_string expression)
    = true
  ↔ ∀ c, c ∈ list_ascii_of_string expression →
         c ∈ list_ascii_of_string "0123456789+-*/(). ".
Proof.
  rewrite forallb_forall. split.
  - intros Hall c Hc. apply char_in_elem_of, Hall. by apply list_elem_of_In.
  - intros Hall c Hc. apply char_in_elem_of, Hall. by apply list_elem_of_In.
Qed.

(** X1: [calculate] calls [eval] at most once, with the expression as it
    was given, and only when every character of the expression is in the
    safe set: no other text ever reaches [eval]. *)
Theorem calculate_evaluates_only_safe_text
    (eval : string → result string) (expression : string) :
  (length (calculate eval expression).1 ≤ 1)%nat
  ∧ ∀ ev, ev ∈ (calculate eval expression).1 →
      ev = EvalCall expression
      ∧ ∀ c, c ∈ list_ascii_of_string expression →
             c ∈ list_ascii_of_string "0123456789+-*/(). ".
Proof.
  unfold calculate.
  destruct (forallb _ _) eqn:Hall; simpl.
  - pose proof (proj1 (valid_iff expression) Hall) as Hsafe.
    destruct (eval expression) as [text | e]; [| destruct (is_Exception e)];
      simpl; (split; [lia |]); intros ev Hev;
      apply list_elem_of_singleton in Hev as ->; done.
  - split; [lia |]. intros ev Hev. by apply elem_of_nil in Hev.
Qed.

Lemma calculate_evaluates_only_safe_text_witness :
  "+"%char ∈ list_ascii_of_string "0123456789+-*/(). ".
Proof.
  destruct (calculate_evaluates_only_safe_text (fun _ => Return "9")
              "(1 + 2) * 3") as [_ Hev].
  destruct (Hev (EvalCall "(1 + 2) * 3")) as [_ Hsafe].
  - simpl. apply list_elem_of_here.
  - apply (Hsafe "+"%char). simpl.
    do 3 apply list_elem_of_further. apply list_elem_of_here.
Defined.

(** X2: [calculate] raises only what [eval] raised outside
    [Exception]; an [Exception] raised by [eval] comes back as the string
    "Error calculating: " followed by its message, and a value as the
    expression, " = " and the value. *)
Theorem calculate_catches_every_Exception
    (eval : string → result string) (expression : string) :
  (∀ e, (calculate eval expression).2 = Raise e →
        is_Exception e = false ∧ eval expression = Raise e)
  ∧ ((∀ c, c ∈ list_ascii_of_string expression →
           c ∈ list_ascii_of_string "0123456789+-*/(). ") →
     (∀ e, eval expression = Raise e → is_Exception e = true →
           calculate eval expression
           = ([EvalCall expression],
              Return ("Error calculating: " +:+ exn_str e)))
     ∧ (∀ text, eval expression = Return text →
           calculate eval expression
           = ([EvalCall expression],
              Return (expression +:+ " = " +:+ text)))).
Proof.
  unfold calculate. split.
  - intros e. destruct (forallb _ _); simpl; [| discriminate].
    destruct (eval expression) as [text | e']; simpl; [discriminate |].
    destruct (is_Exception e') eqn:Hexn; simpl; [discriminate |].
    by intros [= ->].
  - intros Hsafe. rewrite (proj2 (valid_iff expression) Hsafe). simpl.
    split; [intros e -> -> | intros text ->]; reflexivity.
Qed.

Lemma calculate_catches_every_Exception_witness :
  calculate (fun _ => Raise (mk_exn Exception "division by zero")) "1/0"
  = ([EvalCall "1/0"], Return "Error calculating: division by zero").
Proof.
  destruct (calculate_catches_every_Exception
              (fun _ => Raise (mk_exn Exception "division by zero")) "1/0")
    as [_ Hsafe].
  destruct Hsafe as [Hexn _].
  - intros c Hc. simpl in Hc.
    repeat (apply elem_of_cons in Hc as [-> | Hc];
            [apply char_in_elem_of; reflexivity |]).
    by apply elem_of_nil in Hc.
  - apply (Hexn (mk_exn Exception "division by zero")); reflexivity.
Defined.

(** ** Whole runs of the conversation loop *)

Lemma streamed_app (out1 out2 : list event) :
  streamed (out1 ++ out2) = streamed out1 ++ streamed out2.
Proof.
  induction out1 as [|ev out1 IH]; [done |].
  destruct ev; simpl; by rewrite ?IH.
Qed.

Lemma streamed_only_stdout (out : list event) :
  only_stdout out → streamed out = [].
Proof.
  induction 1 as [|ev out (text & ->) _ IH]; [done | exact IH].
Qed.

Lemma elem_of_streamed (out : list event) (message : string) :
  message ∈ streamed out ↔ RunStream message ∈ out.
Proof.
  induction out as [|ev out IH]; simpl.
  - by rewrite !elem_of_nil.
  - destruct ev; rewrite ?elem_of_cons, IH; split;
      try (intros [[= ->] | H]); try (intros [-> | H]); auto; try done.
Qed.

(** *** What [strip] removes *)

(** Texts that are entries of [table] one after the other. *)
Lemma drop_prefix_Some (prefix bytes rest : list ascii) :
  drop_prefix prefix bytes = Some rest ↔ bytes = prefix ++ rest.
Proof.
  revert bytes. induction prefix as [|a prefix IH]; intros bytes; simpl.
  - split; [by intros [= ->] | by intros ->].
  - destruct bytes as [|b bytes]; [split; discriminate |].
    destruct (Ascii.eqb_spec a b) as [-> | Hne].
    + rewrite IH. split; [by intros -> | by intros [= ->]].
    + split; [discriminate | intros [= -> _]; by destruct Hne].
Qed.

Lemma drop_first_Some (table : list (list ascii)) (bytes rest : list ascii) :
  drop_first table bytes = Some rest →
  ∃ entry, In entry table ∧ bytes = entry ++ rest.
Proof.
  induction table as [|entry table IH]; simpl; [discriminate |].
  destruct (drop_prefix entry bytes) as [rest' |] eqn:Hdrop.
  - intros [= ->]. apply drop_prefix_Some in Hdrop. exists entry. auto.
  - intros (entry' & Hin & Heq)%IH. exists entry'. auto.
Qed.

Lemma drop_first_None (table : list (list ascii)) (bytes : list ascii) :
  drop_first table bytes = None →
  ∀ entry rest, In entry table → bytes ≠ entry ++ rest.
Proof.
  induction table as [|entry table IH]; simpl; [by intros _ ? ? [] |].
  destruct (drop_prefix entry bytes) as [rest' |] eqn:Hdrop; [discriminate |].
  intros Hnone entry' rest [<- | Hin] Heq.
  - apply drop_prefix_Some in Heq. congruence.
  - by apply (IH Hnone entry' rest).
Qed.

Lemma well_formed_nonempty (table : list (list ascii)) (entry : list ascii) :
  well_formed table = true → In entry table → entry ≠ [].
Proof.
  unfold well_formed. rewrite forallb_forall. intros Hwf Hin ->.
  by apply Hwf in Hin.
Qed.

Lemma well_formed_prefix_free (table : list (list ascii))
    (entry1 entry2 rest1 rest2 : list ascii) :
  well_formed table = true → In entry1 table → In entry2 table →
  entry1 ++ rest1 = entry2 ++ rest2 → entry1 = entry2.
Proof.
  unfold well_formed. rewrite forallb_forall. intros Hwf Hin1 Hin2 Heq.
  assert (Hno : ∀ e1 e2 k, In e1 table → In e2 table → e2 = e1 ++ k → k = []).
  { intros e1 e2 k He1 He2 Hk. apply Hwf in He1.
    destruct e1 as [|a e1]; [discriminate |].
    rewrite forallb_forall in He1. apply He1 in He2.
    apply drop_prefix_Some in Hk. rewrite Hk in He2. by destruct k. }
  apply app_eq_inv in Heq as [(k & Hk & _) | (k & Hk & _)].
  - rewrite (Hno entry2 entry1 k Hin2 Hin1 Hk) in Hk. by rewrite app_nil_r in Hk.
  - rewrite (Hno entry1 entry2 k Hin1 Hin2 Hk) in Hk. by rewrite app_nil_r in Hk.
Qed.

Lemma whitespace_well_formed : well_formed whitespace = true.
Proof. vm_compute. reflexivity. Qed.

Lemma drop_first_nil (table : list (list ascii)) :
  well_formed table = true → drop_first table [] = None.
Proof.
  intros Hwf. destruct (drop_first table []) as [rest |] eqn:Hdrop; [| done].
  apply drop_first_Some in Hdrop as (entry & Hin & Heq).
  symmetry in Heq. apply app_eq_nil in Heq as [-> _].
  by apply (well_formed_nonempty table []) in Hin.
Qed.

(** A text made of entries only is removed whole. *)
Lemma lstrip_with_entries (table : list (list ascii))
    (entries : list (list ascii)) (fuel : nat) :
  well_formed table = true →
  Forall (fun entry => In entry table) entries →
  (length (concat entries) ≤ fuel)%nat →
  lstrip_with table fuel (concat entries) = [].
Proof.
  intros Hwf Hentries. revert fuel.
  induction Hentries as [|entry entries Hin _ IH]; intros fuel Hfuel.
  - destruct fuel; simpl; [done | by rewrite drop_first_nil].
  - pose proof (well_formed_nonempty _ _ Hwf Hin) as Hne.
    simpl in *. rewrite length_app in Hfuel.
    destruct entry as [|a entry]; [done |]. simpl in Hfuel.
    destruct fuel as [|fuel]; [lia |]. cbn [lstrip_with].
    destruct (drop_first table ((a :: entry) ++ concat entries))
      as [rest |] eqn:Hdrop.
    + apply drop_first_Some in Hdrop as (entry' & Hin' & Heq).
      pose proof (well_formed_prefix_free _ _ _ _ _ Hwf Hin Hin' Heq) as <-.
      apply app_inv_head in Heq as <-. apply IH. lia.
    + by destruct (drop_first_None _ _ Hdrop (a :: entry) (concat entries) Hin).
Qed.

(** What [lstrip_with] removes is made of entries. *)
Lemma lstrip_with_removes_entries (table : list (list ascii)) (fuel : nat)
    (bytes : list ascii) :
  ∃ entries,
    Forall (fun entry => In entry table) entries
    ∧ bytes = concat entries ++ lstrip_with table fuel bytes.
Proof.
  revert bytes. induction fuel as [|fuel IH]; intros bytes; simpl.
  - by exists [].
  - destruct (drop_first table bytes) as [rest |] eqn:Hdrop; [| by exists []].
    apply drop_first_Some in Hdrop as (entry & Hin & ->).
    destruct (IH rest) as (entries & Hentries & Heq).
    exists (entry :: entries). split; [by constructor |].
    simpl. rewrite <- app_assoc. by rewrite <- Heq.
Qed.

(** With enough fuel, what [lstrip_with] leaves begins with no entry. *)
Lemma lstrip_with_stops (table : list (list ascii)) (fuel : nat)
    (bytes : list ascii) :
  well_formed table = true → (length bytes ≤ fuel)%nat →
  drop_first table (lstrip_with table fuel bytes) = None.
Proof.
  intros Hwf. revert bytes. induction fuel as [|fuel IH]; intros bytes Hfuel.
  - destruct bytes; [| simpl in Hfuel; lia]. by apply drop_first_nil.
  - simpl. destruct (drop_first table bytes) as [rest |] eqn:Hdrop; [| done].
    apply drop_first_Some in Hdrop as (entry & Hin & ->).
    apply IH. rewrite length_app in Hfuel.
    pose proof (well_formed_nonempty _ _ Hwf Hin).
    destruct entry; [done |]. simpl in Hfuel. lia.
Qed.

Lemma rev_concat (entries : list (list ascii)) :
  rev (concat entries) = concat (map (@rev ascii) (rev entries)).
Proof.
  induction entries as [|entry entries IH]; simpl; [done |].
  rewrite rev_app_distr, IH, map_app, concat_app. simpl.
  by rewrite app_nil_r.
Qed.

Lemma blank_entries (s : string) :
  blank s ↔ ∃ entries,
    Forall (fun entry => In entry whitespace) entries
    ∧ list_ascii_of_string s = concat entries.
Proof.
  unfold blank, whitespace. split.
  - intros (code_points & Hall & ->). exists (map utf8 code_points).
    split; [| by rewrite flat_map_concat_map].
    apply Forall_forall. intros entry (c & <- & Hc)%list_elem_of_In%in_map_iff.
    apply in_map. rewrite Forall_forall in Hall.
    by apply Hall, list_elem_of_In.
  - intros (entries & Hall & ->).
    induction Hall as [|entry entries (c & <- & Hc)%in_map_iff _ IH].
    + by exists [].
    + destruct IH as (code_points & Hcp & Heq). exists (c :: code_points).
      split; [by constructor |]. simpl. by rewrite Heq.
Qed.

(** [strip] leaves nothing exactly of the blank texts. *)
Lemma strip_blank (s : string) : strip s = "" ↔ blank s.
Proof.
  rewrite blank_entries. unfold strip, rstrip_bytes, lstrip_bytes.
  set (bytes := list_ascii_of_string s). split.
  - intros Hstrip.
    assert (Hnil : rev (lstrip_with (map (@rev ascii) whitespace)
                          (length (lstrip_with whitespace (length bytes) bytes))
                          (rev (lstrip_with whitespace (length bytes) bytes)))
                   = []).
    { apply (f_equal list_ascii_of_string) in Hstrip.
      by rewrite list_ascii_of_string_of_list_ascii in Hstrip. }
    destruct (lstrip_with_removes_entries whitespace (length bytes) bytes)
      as (entries & Hentries & Hbytes).
    pose proof (lstrip_with_stops whitespace (length bytes) bytes
                  whitespace_well_formed (le_n _)) as Hstop.
    set (kept := lstrip_with whitespace (length bytes) bytes) in *.
    destruct (lstrip_with_removes_entries (map (@rev ascii) whitespace)
                (length kept) (rev kept)) as (entries' & Hentries' & Hkept).
    apply (f_equal (@rev ascii)) in Hnil. rewrite rev_involutive in Hnil.
    change (rev (@nil ascii)) with (@nil ascii) in Hnil.
    rewrite Hnil, app_nil_r in Hkept.
    apply (f_equal (@rev ascii)) in Hkept.
    rewrite rev_involutive, rev_concat in Hkept.
    destruct (rev entries') as [|entry rest] eqn:Hrev.
    + simpl in Hkept. rewrite Hkept, app_nil_r in Hbytes. by exists entries.
    + exfalso. simpl in Hkept.
      apply (drop_first_None _ _ Hstop (rev entry)
               (concat (map (@rev ascii) rest))); [| exact Hkept].
      assert (Hin : In entry (map (@rev ascii) whitespace)).
      { rewrite Forall_forall in Hentries'. apply Hentries', list_elem_of_In.
        apply in_rev. rewrite Hrev. by left. }
      apply in_map_iff in Hin as (w & <- & Hw). by rewrite rev_involutive.
  - intros (entries & Hentries & ->).
    rewrite lstrip_with_entries; [done | exact whitespace_well_formed | done | done].
Qed.

Section Runs.

Context {Agent : Type} {L : Lower}.
Variable agent_tools : Agent → list tool.
Variable run_stream : Agent → string → stream * Agent.

(** The two shapes of an iteration.  Either the agent is not called: the
    trace is prints, the [agent] field is untouched, the counter is kept
    or reset, and the line, if one was read, is blank or begins with a
    slash.  Or the stripped line, which is not empty and does
    not begin with a slash, goes to [run_stream] once: the counter goes
    up by one when the stream ends normally and is kept otherwise. *)
Lemma iteration_cases (self self' : ConversationLoop Agent)
    (line : result string) (out : list event) (ctl : control) :
  iteration agent_tools run_stream self line = (out, self', ctl) →
  (only_stdout out ∧ agent self' = agent self
   ∧ (conversation_count self' = conversation_count self
      ∨ conversation_count self' = 0%Z)
   ∧ ∀ raw, line = Return raw →
       strip raw = "" ∨ startswith_slash (strip raw) = true)
  ∨ ∃ raw s tail,
      line = Return raw ∧ strip raw ≠ "" ∧ startswith_slash (strip raw) = false
      ∧ run_stream (agent self) (strip raw) = (s, agent self')
      ∧ out = [Stdout "You: "; Stdout "Agent: "; RunStream (strip raw)]
                ++ flat_map print_end (chunks s) ++ tail
      ∧ only_stdout tail
      ∧ ((stream_end s = None ∧ ctl = Continue
          ∧ tail = print "" ++ print ""
          ∧ conversation_count self' = (conversation_count self + 1)%Z)
         ∨ (stream_end s ≠ None
            ∧ conversation_count self' = conversation_count self)).
Proof.
  unfold iteration. destruct line as [raw | e].
  - destruct (String.eqb_spec (strip raw) "") as [Hempty | Hne].
    { intros [= <- <- <-]. left. repeat split; auto with trace.
      intros raw' [= <-]. by left. }
    destruct (startswith_slash (strip raw)) eqn:Hslash.
    + intros Hit. left.
      destruct (_ || _); [| destruct (_ =? "/help");
        [| destruct (_ =? "/clear"); [| destruct (_ =? "/tools")]]];
      simpl in Hit; injection Hit as <- <- <-; simpl;
      (repeat split; auto 10 with trace); intros raw' [= <-]; by right.
    + destruct (run_stream (agent self) (strip raw)) as [s agent'] eqn:Hrun.
      intros Hit. right. exists raw, s.
      destruct (stream_end s) as [e|] eqn:Hend.
      * destruct (is_Exception e) eqn:Hexn.
        { injection Hit as <- <- <-.
          exists (print (nl +:+ "[Error: " +:+ exn_str e +:+ "]")).
          repeat split; auto with trace. }
        unfold outer_handlers in Hit. simpl in Hit.
        destruct (exn_cls e); injection Hit as <- <- <-; eexists;
          repeat split; auto with trace.
      * injection Hit as <- <- <-. exists (print "" ++ print "").
        repeat split; auto with trace.
  - unfold outer_handlers. intros Hit. left.
    destruct (exn_cls e); injection Hit as <- <- <-;
      (repeat split; auto 10 with trace); intros raw' [=].
Qed.

Lemma loop_nil (self : ConversationLoop Agent) :
  loop agent_tools run_stream self []
  = ([Stdout "You: "] ++ goodbye_eof, self, None).
Proof. reflexivity. Qed.

(** What an iteration passes to [run_stream]: nothing, or the stripped
    line. *)
Lemma streamed_iteration (self self' : ConversationLoop Agent)
    (line : result string) (out : list event) (ctl : control) :
  iteration agent_tools run_stream self line = (out, self', ctl) →
  streamed out = []
  ∨ ∃ raw, line = Return raw ∧ strip raw ≠ ""
           ∧ startswith_slash (strip raw) = false
           ∧ streamed out = [strip raw].
Proof.
  intros [(Hout & _) | (raw & s & tail & -> & Hne & Hslash & _ & -> & Htail & _)]
    %iteration_cases.
  - left. by apply streamed_only_stdout.
  - right. exists raw. repeat split; try done.
    simpl. rewrite streamed_app, (streamed_only_stdout tail) by done.
    rewrite streamed_only_stdout by auto with trace. done.
Qed.

(** The counter after an iteration: never negative, and at most one more
    than before, and that only when a message went to the agent. *)
Lemma counter_iteration (self self' : ConversationLoop Agent)
    (line : result string) (out : list event) (ctl : control) :
  iteration agent_tools run_stream self line = (out, self', ctl) →
  (0 ≤ conversation_count self)%Z →
  (0 ≤ conversation_count self'
   ≤ conversation_count self + Z.of_nat (length (streamed out)))%Z.
Proof.
  intros Hit Hpos. destruct (streamed_iteration _ _ _ _ _ Hit)
    as [Hs | (raw & _ & _ & _ & Hs)]; rewrite Hs; simpl;
    apply iteration_cases in Hit
      as [(Hout & _ & Hc & _) | (raw' & s & tail & _ & _ & _ & _ & -> & Ht & Hc)].
  - lia.
  - simpl in Hs. discriminate Hs.
  - lia.
  - destruct Hc as [(_ & _ & _ & ->) | (_ & ->)]; lia.
Qed.

(** X3: a line is skipped exactly when it is blank.  On a line made of
    whitespace characters only, ASCII or not (the empty line included),
    the iteration writes the prompt and nothing else, leaves the loop
    object as it is and goes on; on any other line something follows the
    prompt. *)
Theorem blank_line_is_skipped (self : ConversationLoop Agent) (raw : string) :
  (blank raw →
   iteration agent_tools run_stream self (Return raw)
   = ([Stdout "You: "], self, Continue))
  ∧ (¬ blank raw →
     ∃ ev rest,
       (iteration agent_tools run_stream self (Return raw)).1.1
       = Stdout "You: " :: ev :: rest).
Proof.
  unfold iteration. split.
  - intros Hblank. apply strip_blank in Hblank. by rewrite Hblank.
  - intros Hblank.
    destruct (String.eqb_spec (strip raw) "") as [Hempty | _].
    { by apply strip_blank in Hempty. }
    destruct (startswith_slash (strip raw)).
    + destruct (_ || _); [| destruct (_ =? "/help");
        [| destruct (_ =? "/clear"); [| destruct (_ =? "/tools")]]];
        simpl; try (by eexists _, _).
      unfold show_tools. destruct (agent_tools (agent self)); by eexists _, _.
    + destruct (run_stream (agent self) (strip raw)) as [s agent'].
      destruct (stream_end s) as [e|]; [destruct (is_Exception e) |];
        simpl; try (by eexists _, _).
      destruct (outer_handlers _ e) as [[out' self'] c]. by eexists _, _.
Qed.

(** X4: a line that goes to the agent is passed to [run_stream] once,
    stripped; the loop object keeps the agent as the call leaves it; and
    [conversation_count] goes up by one exactly when the stream ends
    normally, and stays as it was when the stream ends in an exception of
    any class. *)
Theorem counter_counts_completed_responses (self : ConversationLoop Agent)
    (raw : string) (s : stream) (agent' : Agent) :
  strip raw ≠ "" →
  startswith_slash (strip raw) = false →
  run_stream (agent self) (strip raw) = (s, agent') →
  streamed (iteration agent_tools run_stream self (Return raw)).1.1
  = [strip raw]
  ∧ agent (iteration agent_tools run_stream self (Return raw)).1.2 = agent'
  ∧ (stream_end s = None →
     conversation_count (iteration agent_tools run_stream self (Return raw)).1.2
     = (conversation_count self + 1)%Z)
  ∧ (stream_end s ≠ None →
     conversation_count (iteration agent_tools run_stream self (Return raw)).1.2
     = conversation_count self).
Proof.
  intros Hne Hslash Hrun.
  destruct (iteration agent_tools run_stream self (Return raw))
    as [[out self'] ctl] eqn:Hit. simpl.
  apply iteration_cases in Hit
    as [(_ & _ & _ & Hq)
       | (raw' & s' & tail & [= <-] & _ & _ & Hrun' & -> & Htail & Hc)].
  - destruct (Hq raw eq_refl); congruence.
  - rewrite Hrun in Hrun'. injection Hrun' as <- <-.
    split.
    { simpl. rewrite streamed_app, (streamed_only_stdout tail) by done.
      by rewrite streamed_only_stdout by auto with trace. }
    split; [done |].
    destruct Hc as [(Hend & _ & _ & ->) | (Hend & ->)]; split; congruence.
Qed.

End Runs.

Lemma blank_line_is_skipped_witness :
  iteration (L := ascii_only) (fun _ : unit => [])
            (fun a _ => (mk_stream [] None, a)) (init tt)
            (Return (string_of_list_ascii
                       (utf8 0x3000 ++ utf8 0x20 ++ utf8 0xA0)))
  = ([Stdout "You: "], init tt, Continue).
Proof.
  apply (proj1 (blank_line_is_skipped (L := ascii_only) (fun _ : unit => [])
                  (fun a _ => (mk_stream [] None, a)) (init tt)
                  (string_of_list_ascii
                     (utf8 0x3000 ++ utf8 0x20 ++ utf8 0xA0)))).
  exists [0x3000; 0x20; 0xA0]%N. split.
  - repeat constructor; simpl; tauto.
  - reflexivity.
Defined.

Lemma counter_counts_completed_responses_witness :
  conversation_count
    (iteration (L := ascii_only) (fun _ : unit => []) (fun a _ => (mk_stream ["Hi"] None, a))
               {| agent := tt; conversation_count := 2 |} (Return " hello ")).1.2
  = 3%Z.
Proof.
  destruct (counter_counts_completed_responses (L := ascii_only) (fun _ : unit => [])
              (fun a _ => (mk_stream ["Hi"] None, a))
              {| agent := tt; conversation_count := 2 |} " hello "
              (mk_stream ["Hi"] None) tt) as (_ & _ & Hdone & _).
  - vm_compute. discriminate.
  - reflexivity.
  - reflexivity.
  - apply Hdone. reflexivity.
Defined.

Section WholeRuns.

Context {Agent : Type} {L : Lower}.
Variable agent_tools : Agent → list tool.
Variable run_stream : Agent → string → stream * Agent.

Lemma only_stdout_print_welcome : only_stdout print_welcome.
Proof. unfold print_welcome. auto 20 with trace. Qed.

(** [run] is the welcome followed by the loop. *)
Lemma run_loop (self : ConversationLoop Agent) (stdin : list (result string)) :
  run agent_tools run_stream self stdin
  = (print_welcome ++ (loop agent_tools run_stream self stdin).1.1,
     (loop agent_tools run_stream self stdin).1.2,
     (loop agent_tools run_stream self stdin).2).
Proof.
  unfold run. by destruct (loop agent_tools run_stream self stdin) as [[out self'] r].
Qed.

Lemma streamed_run (self : ConversationLoop Agent) (stdin : list (result string)) :
  streamed (run agent_tools run_stream self stdin).1.1
  = streamed (loop agent_tools run_stream self stdin).1.1.
Proof.
  rewrite run_loop. cbn [fst]. rewrite streamed_app.
  by rewrite (streamed_only_stdout _ only_stdout_print_welcome).
Qed.

Lemma counter_loop (stdin : list (result string)) (self : ConversationLoop Agent) :
  (length (streamed (loop agent_tools run_stream self stdin).1.1)
   ≤ length stdin)%nat
  ∧ ((0 ≤ conversation_count self)%Z →
     (0 ≤ conversation_count (loop agent_tools run_stream self stdin).1.2
      ≤ conversation_count self
        + Z.of_nat (length (streamed (loop agent_tools run_stream self stdin).1.1)))%Z).
Proof.
  revert self. induction stdin as [|line rest IH]; intros self.
  - rewrite loop_nil. simpl. split; lia.
  - simpl. destruct (iteration agent_tools run_stream self line)
      as [[out self'] c] eqn:Hit.
    pose proof (counter_iteration _ _ _ _ _ _ _ Hit) as Hcount.
    assert (Hone : (length (streamed out) ≤ 1)%nat).
    { destruct (streamed_iteration _ _ _ _ _ _ _ Hit)
        as [-> | (raw & _ & _ & _ & ->)]; simpl; lia. }
    destruct c; simpl; [| split; lia | split; lia].
    destruct (IH self') as [Hlen Hinv].
    destruct (loop agent_tools run_stream self' rest) as [[out' self''] r].
    simpl in *. rewrite streamed_app, length_app. split; [lia |].
    intros Hpos. specialize (Hcount Hpos). lia.
Qed.

(** X5: over a whole run, [conversation_count] is never negative when
    it starts so, and never more than its starting value plus the number
    of messages passed to the agent, which is at most the number of
    lines read. *)
Theorem counter_is_bounded_by_the_messages (self : ConversationLoop Agent)
    (stdin : list (result string)) :
  (length (streamed (run agent_tools run_stream self stdin).1.1)
   ≤ length stdin)%nat
  ∧ ((0 ≤ conversation_count self)%Z →
     (0 ≤ conversation_count (run agent_tools run_stream self stdin).1.2
      ≤ conversation_count self
        + Z.of_nat
            (length (streamed (run agent_tools run_stream self stdin).1.1)))%Z).
Proof.
  rewrite streamed_run. rewrite run_loop. cbn [fst snd]. apply counter_loop.
Qed.

Lemma propagate_iteration (self self' : ConversationLoop Agent)
    (line : result string) (out : list event) (e : exn) :
  iteration agent_tools run_stream self line = (out, self', Propagate e) →
  exn_cls e = BaseException ∨ (exn_cls e = Exception ∧ line = Raise e).
Proof.
  unfold iteration, outer_handlers, is_Exception. destruct line as [raw | e'].
  - destruct (_ =? ""); [discriminate |].
    destruct (startswith_slash _).
    + destruct (_ || _); [| destruct (_ =? "/help");
        [| destruct (_ =? "/clear"); [| destruct (_ =? "/tools")]]];
        discriminate.
    + destruct (run_stream _ _) as [s agent'].
      destruct (stream_end s) as [e'|]; [| discriminate].
      destruct (exn_cls e') eqn:Hcls; try discriminate.
      intros [= _ _ <-]. by left.
  - destruct (exn_cls e') eqn:Hcls; try discriminate;
      intros [= _ _ <-]; auto.
Qed.

(** X6: no [KeyboardInterrupt] and no [EOFError] ever leaves [run], and
    an exception under [Exception] leaves it only when [input] itself
    raised it: what the agent raises under [Exception] stays inside. *)
Theorem run_lets_out_only_foreign_exceptions (self : ConversationLoop Agent)
    (stdin : list (result string)) (e : exn) :
  (run agent_tools run_stream self stdin).2 = Some e →
  exn_cls e = BaseException ∨ (exn_cls e = Exception ∧ Raise e ∈ stdin).
Proof.
  rewrite run_loop. cbn [snd]. revert self.
  induction stdin as [|line rest IH]; intros self; [discriminate |].
  simpl. destruct (iteration agent_tools run_stream self line)
    as [[out self'] c] eqn:Hit.
  destruct c as [| | e']; simpl.
  - specialize (IH self').
    destruct (loop agent_tools run_stream self' rest) as [[out' self''] r].
    simpl in *. intros Hr. destruct (IH Hr) as [H | [H Hin]]; [by left |].
    right. split; [done | by apply list_elem_of_further].
  - discriminate.
  - intros [= <-]. apply propagate_iteration in Hit as [H | [H ->]];
      [by left |]. right. split; [done | apply list_elem_of_here].
Qed.

(** X7: the run ends, the loop object as it was and no exception
    leaving it, when the input is at its end or [input] raises
    [EOFError], with the farewell of the [EOFError] handler (two line
    breaks in front), and on /quit and /exit, in any case of the letters
    and with any whitespace around, with the goodbye message (one line
    break in front); whatever input follows is not read. *)
Theorem run_ends_on_quit_and_end_of_input (self : ConversationLoop Agent) :
  run agent_tools run_stream self []
  = (print_welcome ++ [Stdout "You: "] ++ goodbye_eof, self, None)
  ∧ (∀ e rest, exn_cls e = EOFError →
       run agent_tools run_stream self (Raise e :: rest)
       = (print_welcome ++ [Stdout "You: "] ++ goodbye_eof, self, None))
  ∧ (∀ raw rest, lower (strip raw) ∈ ["/quit"; "/exit"] →
       run agent_tools run_stream self (Return raw :: rest)
       = (print_welcome ++ [Stdout "You: "] ++ goodbye, self, None)).
Proof.
  split; [reflexivity |]. split.
  - intros e rest Hcls. unfold run.
    rewrite (loop_break _ _ self self (Raise e) rest
               ([Stdout "You: "] ++ goodbye_eof));
      [done |].
    unfold iteration, outer_handlers. by rewrite Hcls.
  - intros raw rest Hquit. unfold run.
    rewrite (loop_break _ _ self self (Return raw) rest ([Stdout "You: "] ++ goodbye));
      [done |].
    assert (Hcmd : startswith_slash (lower (strip raw)) = true).
    { apply elem_of_cons in Hquit as [-> | Hquit]; [done |].
      by apply list_elem_of_singleton in Hquit as ->. }
    destruct (command_starts_with_slash _ _ eq_refl Hcmd) as [Hne Hslash].
    unfold iteration.
    destruct (String.eqb_spec (strip raw) "") as [Hempty | _]; [done |].
    rewrite Hslash.
    apply elem_of_cons in Hquit as [-> | Hquit]; [done |].
    by apply list_elem_of_singleton in Hquit as ->.
Qed.

(** X8: in a whole run, what goes to the agent is never empty, never
    begins with a slash, and is one of the lines read with the
    whitespace around it removed: no command and no blank line reaches
    the agent. *)
Theorem only_messages_reach_the_agent (self : ConversationLoop Agent)
    (stdin : list (result string)) (message : string) :
  RunStream message ∈ (run agent_tools run_stream self stdin).1.1 →
  message ≠ "" ∧ startswith_slash message = false
  ∧ ∃ raw, Return raw ∈ stdin ∧ message = strip raw.
Proof.
  rewrite <- elem_of_streamed, streamed_run. revert self.
  induction stdin as [|line rest IH]; intros self.
  - rewrite loop_nil. simpl. by intros ?%elem_of_nil.
  - simpl. destruct (iteration agent_tools run_stream self line)
      as [[out self'] c] eqn:Hit.
    assert (Hhere : message ∈ streamed out →
      message ≠ "" ∧ startswith_slash message = false
      ∧ ∃ raw, Return raw ∈ line :: rest ∧ message = strip raw).
    { destruct (streamed_iteration _ _ _ _ _ _ _ Hit)
        as [-> | (raw & -> & Hne & Hslash & ->)]; [by intros ?%elem_of_nil |].
      intros ->%list_elem_of_singleton. repeat split; try done.
      exists raw. split; [apply list_elem_of_here | done]. }
    destruct c; simpl; [| exact Hhere | exact Hhere].
    specialize (IH self').
    destruct (loop agent_tools run_stream self' rest) as [[out' self''] r].
    simpl in *. rewrite streamed_app, elem_of_app. intros [Hm | Hm]; [auto |].
    destruct (IH Hm) as (Hne & Hslash & raw & Hin & ->).
    repeat split; try done. exists raw. split; [by apply list_elem_of_further | done].
Qed.

End WholeRuns.

Lemma counter_is_bounded_by_the_messages_witness :
  (0 ≤ conversation_count
         (run (L := ascii_only) (fun _ : unit => []) (fun a _ => (mk_stream ["Hi"] None, a))
              (init tt) [Return "one"; Return "/clear"; Return "two"]).1.2
   ≤ 0 + Z.of_nat
           (length
              (streamed
                 (run (L := ascii_only) (fun _ : unit => []) (fun a _ => (mk_stream ["Hi"] None, a))
                      (init tt) [Return "one"; Return "/clear"; Return "two"]).1.1)))%Z.
Proof.
  apply (proj2 (counter_is_bounded_by_the_messages (L := ascii_only) (fun _ : unit => [])
                  (fun a _ => (mk_stream ["Hi"] None, a)) (init tt)
                  [Return "one"; Return "/clear"; Return "two"])).
  simpl. lia.
Defined.

Lemma run_lets_out_only_foreign_exceptions_witness :
  exn_cls (mk_exn Exception "invalid start byte") = BaseException
  ∨ (exn_cls (mk_exn Exception "invalid start byte") = Exception
     ∧ Raise (mk_exn Exception "invalid start byte")
       ∈ [Return "hello"; Raise (mk_exn Exception "invalid start byte")]).
Proof.
  apply (run_lets_out_only_foreign_exceptions (L := ascii_only) (fun _ : unit => [])
           (fun a _ => (mk_stream ["Hi"] None, a)) (init tt)
           [Return "hello"; Raise (mk_exn Exception "invalid start byte")]).
  reflexivity.
Defined.

Lemma run_ends_on_quit_and_end_of_input_witness :
  run (L := ascii_only) (fun _ : unit => []) (fun a _ => (mk_stream ["Hi"] None, a))
      (init tt) [Return " /QUIT "; Return "never read"]
  = (print_welcome ++ [Stdout "You: "] ++ goodbye, init tt, None).
Proof.
  destruct (run_ends_on_quit_and_end_of_input (L := ascii_only) (fun _ : unit => [])
              (fun a _ => (mk_stream ["Hi"] None, a)) (init tt))
    as (_ & _ & Hquit).
  apply Hquit. simpl. apply list_elem_of_here.
Defined.

Lemma only_messages_reach_the_agent_witness :
  "hi" ≠ "" ∧ startswith_slash "hi" = false
  ∧ ∃ raw, Return raw ∈ [Return "/help"; Return " hi "] ∧ "hi" = strip raw.
Proof.
  apply (only_messages_reach_the_agent (L := ascii_only) (fun _ : unit => [])
           (fun a _ => (mk_stream ["Hi"] None, a)) (init tt)
           [Return "/help"; Return " hi "] "hi").
  apply elem_of_streamed. simpl. apply list_elem_of_here.
Defined.

(** ** The list of tools *)

(** X9: [show_tools] only prints.  Without tools it prints the one line
    saying so; with tools it prints a header, one line for each tool
    carrying its name and description, and an empty line. *)
Theorem show_tools_lists_every_tool (Agent : Type)
    (agent_tools : Agent → list tool) (self : ConversationLoop Agent) :
  only_stdout (show_tools agent_tools self)
  ∧ (agent_tools (agent self) = [] →
     show_tools agent_tools self
     = print (nl +:+ "No tools available for this agent." +:+ nl))
  ∧ (agent_tools (agent self) ≠ [] →
     length (show_tools agent_tools self)
     = (length (agent_tools (agent self)) + 2)%nat
     ∧ ∀ t, t ∈ agent_tools (agent self) →
         Stdout ("  • " +:+ tool_name t +:+ ": " +:+ tool_description t +:+ nl)
         ∈ show_tools agent_tools self).
Proof.
  split; [apply only_stdout_show_tools |].
  unfold show_tools. destruct (agent_tools (agent self)) as [|t0 tools].
  - split; [done | by intros []].
  - split; [discriminate |]. intros _. split.
    + simpl. rewrite length_app. simpl.
      assert (Hlen : ∀ l : list tool,
        length (flat_map (fun t => print ("  • " +:+ tool_name t +:+ ": "
                                          +:+ tool_description t)) l)
        = length l).
      { induction l as [|x l IH]; simpl; [done | by rewrite IH]. }
      rewrite Hlen. lia.
    + intros t Ht. apply elem_of_app. right. apply elem_of_app. left.
      apply list_elem_of_In, in_flat_map. exists t.
      split; [by apply list_elem_of_In |].
      unfold print. rewrite !append_assoc. by left.
Qed.

Lemma show_tools_lists_every_tool_witness :
  Stdout ("  • calculate: Safely evaluate a mathematical expression." +:+ nl)
  ∈ show_tools
      (fun _ : unit =>
         [mk_tool "get_current_datetime" "Get the current date and time.";
          mk_tool "calculate" "Safely evaluate a mathematical expression."])
      (init tt).
Proof.
  destruct (show_tools_lists_every_tool unit
      (fun _ : unit =>
         [mk_tool "get_current_datetime" "Get the current date and time.";
          mk_tool "calculate" "Safely evaluate a mathematical expression."])
      (init tt)) as (_ & _ & Hsome).
  destruct Hsome as [_ Hin]; [discriminate |].
  apply (Hin (mk_tool "calculate" "Safely evaluate a mathematical expression.")).
  simpl. apply list_elem_of_further, list_elem_of_here.
Defined.

(** ** Start-up and the entry points *)

Lemma not_set_false (environ : gmap string string) (key value : string) :
  environ !! key = Some value → value ≠ "" → not_set (environ !! key) = false.
Proof.
  intros -> Hvalue. simpl. by destruct (String.eqb_spec value "").
Qed.

(** X10: with both variables set, when constructing the client raises
    an exception under [Exception] (no login, say), [main] of each of
    the three scripts prints "Error connecting to Azure OpenAI: " with
    the message and the hint to run 'az login', and returns (1 in the
    conversation loop, whose script exits with status 1): no agent is
    created, no prompt is written and nothing is sent. *)
Theorem connection_failure_is_reported (environ : gmap string string)
    (endpoint deployment : string) (Client Agent : Type) {L : Lower}
    (new_client : result Client) (create_agent : Client → result Agent)
    (agent_tools : Agent → list tool)
    (run_stream : Agent → string → stream * Agent)
    (agent_run : Agent → string → result run_result * Agent)
    (agent_ask : Agent → string → result string * Agent)
    (stdin : list (result string)) (e : exn) :
  environ !! "AZURE_OPENAI_ENDPOINT" = Some endpoint → endpoint ≠ "" →
  environ !! "AZURE_OPENAI_DEPLOYMENT_NAME" = Some deployment →
  deployment ≠ "" →
  new_client = Raise e →
  is_Exception e = true →
  let report :=
    [NewClient]
      ++ print ("Error connecting to Azure OpenAI: " +:+ exn_str e)
      ++ print "Make sure you've run 'az login' first" in
  conversation_loop.main new_client create_agent agent_tools run_stream
    environ stdin = (report, Return 1%Z)
  ∧ conversation_loop.script new_client create_agent agent_tools run_stream
      environ stdin = (report, Exit 1)
  ∧ tool_agent_template.main new_client create_agent agent_tools agent_run
      environ = (report, Return tt)
  ∧ basic_agent_template.main new_client create_agent agent_ask environ
    = (report, Return tt).
Proof.
  intros Hendpoint Hne1 Hdeployment Hne2 -> Hexn report.
  unfold conversation_loop.script, conversation_loop.main,
    tool_agent_template.main, basic_agent_template.main,
    AZURE_OPENAI_ENDPOINT, AZURE_OPENAI_DEPLOYMENT_NAME.
  rewrite (not_set_false _ _ _ Hendpoint Hne1).
  rewrite (not_set_false _ _ _ Hdeployment Hne2).
  by rewrite Hexn.
Qed.

Lemma connection_failure_is_reported_witness :
  conversation_loop.script (L := ascii_only)
    (Raise (mk_exn Exception "az login required"))
    (fun _ : unit => Return tt) (fun _ : unit => [])
    (fun a _ => (mk_stream [] None, a))
    {[ "AZURE_OPENAI_ENDPOINT" := "https://example.openai.azure.com/";
       "AZURE_OPENAI_DEPLOYMENT_NAME" := "gpt-4o-mini" ]}
    [Return "hello"]
  = ([NewClient]
       ++ print "Error connecting to Azure OpenAI: az login required"
       ++ print "Make sure you've run 'az login' first",
     Exit 1).
Proof.
  destruct (connection_failure_is_reported (L := ascii_only)
      {[ "AZURE_OPENAI_ENDPOINT" := "https://example.openai.azure.com/";
         "AZURE_OPENAI_DEPLOYMENT_NAME" := "gpt-4o-mini" ]}
      "https://example.openai.azure.com/" "gpt-4o-mini" unit unit
      (Raise (mk_exn Exception "az login required"))
      (fun _ => Return tt) (fun _ => [])
      (fun a _ => (mk_stream [] None, a))
      (fun a _ => (Return (mk_run_result "" []), a))
      (fun a _ => (Return "", a))
      [Return "hello"] (mk_exn Exception "az login required"))
    as (_ & Hscript & _).
  - reflexivity.
  - discriminate.
  - reflexivity.
  - discriminate.
  - reflexivity.
  - reflexivity.
  - exact Hscript.
Defined.

Section ConversationMain.

Context {Client Agent : Type} {L : Lower}.
Variable new_client : result Client.
Variable create_agent : Client → result Agent.
Variable agent_tools : Agent → list tool.
Variable run_stream : Agent → string → stream * Agent.

(** X11: [main] of the conversation loop returns 0 only after a full
    session: both variables were set, the client and the agent "ChatBot"
    with its two tools were created, in this order and before anything
    else, the conversation ran on that agent from a counter of 0, and no
    exception left it. *)
Theorem main_returns_zero_after_a_session (environ : gmap string string)
    (stdin : list (result string)) :
  (conversation_loop.main new_client create_agent agent_tools run_stream
     environ stdin).2 = Return 0%Z →
  (∃ endpoint deployment,
      environ !! "AZURE_OPENAI_ENDPOINT" = Some endpoint ∧ endpoint ≠ ""
      ∧ environ !! "AZURE_OPENAI_DEPLOYMENT_NAME" = Some deployment
      ∧ deployment ≠ "")
  ∧ ∃ client a,
      new_client = Return client ∧ create_agent client = Return a
      ∧ (conversation_loop.main new_client create_agent agent_tools run_stream
           environ stdin).1
        = [NewClient; CreateAgent "ChatBot" ["get_current_datetime"; "calculate"]]
            ++ (run agent_tools run_stream (init a) stdin).1.1
      ∧ (run agent_tools run_stream (init a) stdin).2 = None.
Proof.
  unfold conversation_loop.main.
  destruct (not_set (environ !! AZURE_OPENAI_ENDPOINT)) eqn:Hendpoint;
    [discriminate |].
  destruct (not_set (environ !! AZURE_OPENAI_DEPLOYMENT_NAME)) eqn:Hdeployment;
    [discriminate |].
  intros Hzero. split.
  - unfold AZURE_OPENAI_ENDPOINT, AZURE_OPENAI_DEPLOYMENT_NAME in *.
    destruct (environ !! "AZURE_OPENAI_ENDPOINT") as [endpoint|];
      [| discriminate].
    destruct (environ !! "AZURE_OPENAI_DEPLOYMENT_NAME") as [deployment|];
      [| discriminate].
    exists endpoint, deployment. simpl in *.
    repeat split; try done; intros ->; discriminate.
  - destruct new_client as [client | e].
    + destruct (create_agent client) as [a | e] eqn:Hagent; [| discriminate].
      exists client, a.
      destruct (run agent_tools run_stream (init a) stdin) as [[out self'] r].
      simpl in *. destruct r; [discriminate | by repeat split].
    + destruct (is_Exception e); discriminate.
Qed.

(** X12: the script of the conversation loop exits with status 0 or 1
    or is left by an exception.  An exception under [Exception] that
    comes out of running [main] is reported as "Fatal error: " with a
    traceback and the status is 1; an exception that leaves the script
    uncaught is never under [Exception]. *)
Theorem script_exit_status (environ : gmap string string)
    (stdin : list (result string)) :
  (∀ code,
      (conversation_loop.script new_client create_agent agent_tools run_stream
         environ stdin).2 = Exit code →
      code = 0%Z ∨ code = 1%Z)
  ∧ (∀ e,
      (conversation_loop.script new_client create_agent agent_tools run_stream
         environ stdin).2 = Uncaught e →
      is_Exception e = false)
  ∧ (∀ e,
      (conversation_loop.main new_client create_agent agent_tools run_stream
         environ stdin).2 = Raise e →
      is_Exception e = true →
      conversation_loop.script new_client create_agent agent_tools run_stream
        environ stdin
      = ((conversation_loop.main new_client create_agent agent_tools run_stream
            environ stdin).1
           ++ print (nl +:+ "Fatal error: " +:+ exn_str e) ++ [Traceback e],
         Exit 1)).
Proof.
  assert (Hcodes : ∀ code,
    (conversation_loop.main new_client create_agent agent_tools run_stream
       environ stdin).2 = Return code → code = 0%Z ∨ code = 1%Z).
  { unfold conversation_loop.main. intros code.
    destruct (not_set _); [intros [= <-]; by right |].
    destruct (not_set _); [intros [= <-]; by right |].
    destruct new_client as [client | e].
    - destruct (create_agent client) as [a | e]; [| discriminate].
      destruct (run agent_tools run_stream (init a) stdin) as [[out self'] r].
      simpl. destruct r; [discriminate | intros [= <-]; by left].
    - destruct (is_Exception e); [intros [= <-]; by right | discriminate]. }
  unfold conversation_loop.script.
  destruct (conversation_loop.main new_client create_agent agent_tools
              run_stream environ stdin) as [out [code | e]]; simpl in *.
  - split; [intros code' [= <-]; by apply Hcodes |].
    split; [discriminate | discriminate].
  - destruct (is_Exception e) eqn:Hexn; simpl.
    + split; [intros code [= <-]; by right |].
      split; [discriminate |]. by intros e' [= <-] _.
    + split; [discriminate |].
      split; [by intros e' [= <-] | intros e' [= <-]; congruence].
Qed.

End ConversationMain.

Lemma main_returns_zero_after_a_session_witness :
  ∃ a : unit,
    (run (L := ascii_only) (fun _ : unit => []) (fun a _ => (mk_stream ["Hi"] None, a))
         (init a) [Return "hello"; Return "/quit"]).2 = None.
Proof.
  destruct (main_returns_zero_after_a_session (L := ascii_only) (Return tt)
      (fun _ : unit => Return tt) (fun _ : unit => [])
      (fun a _ => (mk_stream ["Hi"] None, a))
      {[ "AZURE_OPENAI_ENDPOINT" := "https://example.openai.azure.com/";
         "AZURE_OPENAI_DEPLOYMENT_NAME" := "gpt-4o-mini" ]}
      [Return "hello"; Return "/quit"])
    as (_ & client & a & _ & _ & _ & Hrun).
  - reflexivity.
  - exists a. exact Hrun.
Defined.

Lemma script_exit_status_witness : (1 = 0 ∨ 1 = 1)%Z.
Proof.
  destruct (script_exit_status (L := ascii_only) (Return tt)
      (fun _ : unit => Return tt) (fun _ : unit => [])
      (fun a _ => (mk_stream ["Hi"] None, a)) ∅ [Return "hello"])
    as (Hcode & _).
  apply Hcode. reflexivity.
Defined.

Section TemplateScripts.

Context {Client Agent : Type}.
Variable new_client : result Client.
Variable create_agent : Client → result Agent.
Variable agent_tools : Agent → list tool.
Variable agent_run : Agent → string → result run_result * Agent.
Variable agent_ask : Agent → string → result string * Agent.

(** X13: the entry point of the tool template writes its banner, then
    runs [main].  An exception under [Exception] that leaves [main] is
    printed as "Error: " with a traceback, a [KeyboardInterrupt] as
    "Execution cancelled by user", and in both cases the script ends
    normally; only an exception of another class leaves the script. *)
Theorem tool_script_reports_what_main_raises (environ : gmap string string) :
  let banner := print "Microsoft Agent Framework - Tool Agent Template"
                  ++ print (str_repeat "=" 50) in
  let m := tool_agent_template.main new_client create_agent agent_tools
             agent_run environ in
  let s := tool_agent_template.script new_client create_agent agent_tools
             agent_run environ in
  (∀ e, s.2 = Some e → exn_cls e = BaseException ∧ m.2 = Raise e)
  ∧ (∀ e, m.2 = Raise e → is_Exception e = true →
       s = (banner ++ m.1 ++ print (nl +:+ nl +:+ "Error: " +:+ exn_str e)
              ++ [Traceback e], None))
  ∧ (∀ e, m.2 = Raise e → exn_cls e = KeyboardInterrupt →
       s = (banner ++ m.1 ++ print (nl +:+ nl +:+ "Execution cancelled by user"),
            None))
  ∧ (m.2 = Return tt → s = (banner ++ m.1, None)).
Proof.
  intros banner m s. unfold s, tool_agent_template.script. fold m. fold banner.
  unfold is_Exception. clearbody m. clear s.
  destruct m as [out [[] | e]]; cbn [fst snd];
    [| destruct (exn_cls e) eqn:Hcls; cbn [fst snd]];
    repeat match goal with |- _ ∧ _ => split end;
    first
      [ by intros _
      | intros He0; discriminate He0
      | intros e0 He0; first [discriminate He0 | injection He0 as <-];
        rewrite ?Hcls; first [done | discriminate] ].
Qed.

(** X14: the entry point of the basic template does the same under its
    own banner. *)
Theorem basic_script_reports_what_main_raises (environ : gmap string string) :
  let banner := print "Microsoft Agent Framework - Basic Agent Template"
                  ++ print (str_repeat "=" 50) in
  let m := basic_agent_template.main new_client create_agent agent_ask
             environ in
  let s := basic_agent_template.script new_client create_agent agent_ask
             environ in
  (∀ e, s.2 = Some e → exn_cls e = BaseException ∧ m.2 = Raise e)
  ∧ (∀ e, m.2 = Raise e → is_Exception e = true →
       s = (banner ++ m.1 ++ print (nl +:+ nl +:+ "Error: " +:+ exn_str e)
              ++ [Traceback e], None))
  ∧ (∀ e, m.2 = Raise e → exn_cls e = KeyboardInterrupt →
       s = (banner ++ m.1 ++ print (nl +:+ nl +:+ "Execution cancelled by user"),
            None))
  ∧ (m.2 = Return tt → s = (banner ++ m.1, None)).
Proof.
  intros banner m s. unfold s, basic_agent_template.script. fold m. fold banner.
  unfold is_Exception. clearbody m. clear s.
  destruct m as [out [[] | e]]; cbn [fst snd];
    [| destruct (exn_cls e) eqn:Hcls; cbn [fst snd]];
    repeat match goal with |- _ ∧ _ => split end;
    first
      [ by intros _
      | intros He0; discriminate He0
      | intros e0 He0; first [discriminate He0 | injection He0 as <-];
        rewrite ?Hcls; first [done | discriminate] ].
Qed.

End TemplateScripts.

Lemma tool_script_reports_what_main_raises_witness :
  tool_agent_template.script (Raise (mk_exn KeyboardInterrupt ""))
    (fun _ : unit => Return tt) (fun _ : unit => [])
    (fun a _ => (Return (mk_run_result "" []), a))
    {[ "AZURE_OPENAI_ENDPOINT" := "https://example.openai.azure.com/";
       "AZURE_OPENAI_DEPLOYMENT_NAME" := "gpt-4o-mini" ]}
  = (print "Microsoft Agent Framework - Tool Agent Template"
       ++ print (str_repeat "=" 50) ++ [NewClient]
       ++ print (nl +:+ nl +:+ "Execution cancelled by user"),
     None).
Proof.
  destruct (tool_script_reports_what_main_raises
      (Raise (mk_exn KeyboardInterrupt ""))
      (fun _ : unit => Return tt) (fun _ : unit => [])
      (fun a _ => (Return (mk_run_result "" []), a))
      {[ "AZURE_OPENAI_ENDPOINT" := "https://example.openai.azure.com/";
         "AZURE_OPENAI_DEPLOYMENT_NAME" := "gpt-4o-mini" ]})
    as (_ & _ & Hint & _).
  apply (Hint (mk_exn KeyboardInterrupt "")); reflexivity.
Defined.

Lemma basic_script_reports_what_main_raises_witness :
  (basic_agent_template.script (Return tt) (fun _ : unit => Return tt)
     (fun a _ => (Raise (mk_exn Exception "rate limit"), a))
     {[ "AZURE_OPENAI_ENDPOINT" := "https://example.openai.azure.com/";
        "AZURE_OPENAI_DEPLOYMENT_NAME" := "gpt-4o-mini" ]}).2
  = None.
Proof.
  destruct (basic_script_reports_what_main_raises (Return tt)
      (fun _ : unit => Return tt)
      (fun a _ => (Raise (mk_exn Exception "rate limit"), a))
      {[ "AZURE_OPENAI_ENDPOINT" := "https://example.openai.azure.com/";
         "AZURE_OPENAI_DEPLOYMENT_NAME" := "gpt-4o-mini" ]})
    as (_ & Hexn & _).
  rewrite (Hexn (mk_exn Exception "rate limit")); reflexivity.
Defined.

(** ** The queries of the templates *)



Section TemplateQueries.

Context {Client Agent : Type}.
Variable new_client : result Client.
Variable create_agent : Client → result Agent.
Variable agent_tools : Agent → list tool.
Variable agent_run : Agent → string → result run_result * Agent.
Variable agent_ask : Agent → string → result string * Agent.




End TemplateQueries.

Section BasicQueries.

Context {Client Agent : Type}.
Variable new_client : result Client.
Variable create_agent : Client → result Agent.
Variable agent_ask : Agent → string → result string * Agent.


End BasicQueries.



(** ** More on the mock search *)

(** X17: called without [max_results], [search_mock] returns exactly
    three results, numbered 1, 2 and 3 in this order; each has the two
    fields "title" and "snippet" and no other, with the same snippet, and
    the three are different from each other. *)
Theorem search_mock_default_results (query : string) :
  search_mock query None
  = [ {[ "title" := "Result 1 for '" +:+ query +:+ "'";
         "snippet" := "This is a sample result for your search query." ]};
      {[ "title" := "Result 2 for '" +:+ query +:+ "'";
         "snippet" := "This is a sample result for your search query." ]};
      {[ "title" := "Result 3 for '" +:+ query +:+ "'";
         "snippet" := "This is a sample result for your search query." ]} ]
  ∧ NoDup (search_mock query None).
Proof.
  assert (Hlist : search_mock query None
    = [ {[ "title" := "Result 1 for '" +:+ query +:+ "'";
           "snippet" := "This is a sample result for your search query." ]};
        {[ "title" := "Result 2 for '" +:+ query +:+ "'";
           "snippet" := "This is a sample result for your search query." ]};
        {[ "title" := "Result 3 for '" +:+ query +:+ "'";
           "snippet" := "This is a sample result for your search query." ]} ])
    by reflexivity.
  split; [exact Hlist |]. rewrite Hlist.
  repeat constructor; rewrite ?elem_of_cons, ?elem_of_nil;
    intros H; repeat destruct H as [H | H]; try done;
    apply (f_equal (lookup "title")) in H; vm_compute in H; discriminate H.
Qed.

(** X18: [max_results] only cuts the default list short:
    [search_mock(query, n)] is the first [n] of the three default
    results, none for [n] zero or negative and all three from 3 on. *)
Theorem search_mock_truncates (query : string) (max_results : Z) :
  search_mock query (Some max_results)
  = take (Z.to_nat max_results) (search_mock query None).
Proof.
  destruct (decide (max_results ≤ 0)%Z) as [Hneg | Hpos].
  - replace (Z.to_nat max_results) with 0%nat by lia.
    unfold search_mock, range. simpl. by rewrite seqZ_nil by lia.
  - destruct (decide (max_results = 1%Z)) as [-> | H1]; [done |].
    destruct (decide (max_results = 2%Z)) as [-> | H2]; [done |].
    rewrite take_ge by (simpl; lia).
    unfold search_mock. simpl. by rewrite Z.min_r by lia.
Qed.

(** ** More on the temperature conversion *)

Lemma Qc_nine_fifths_pos : (0 < Q2Qc (inject_Z 9) / Q2Qc (inject_Z 5))%Qc.
Proof. reflexivity. Qed.

Lemma Qc_five_ninths_pos : (0 < Q2Qc (inject_Z 5) / Q2Qc (inject_Z 9))%Qc.
Proof. reflexivity. Qed.

(** The constants of the conversion written with the ring operations,
    the form in which [field] computes with them. *)
Lemma Qc_five : Q2Qc (inject_Z 5) = (1 + 1 + 1 + 1 + 1)%Qc.
Proof. apply Qc_is_canon. reflexivity. Qed.

Lemma Qc_nine : Q2Qc (inject_Z 9) = ((1 + 1 + 1) * (1 + 1 + 1))%Qc.
Proof. apply Qc_is_canon. reflexivity. Qed.

Lemma Qc_thirty_two :
  Q2Qc (inject_Z 32) = ((1 + 1) * (1 + 1) * (1 + 1) * (1 + 1) * (1 + 1))%Qc.
Proof. apply Qc_is_canon. reflexivity. Qed.

Lemma Qc_minus_forty :
  Q2Qc (inject_Z (-40))
  = (- ((1 + 1) * (1 + 1) * (1 + 1) * (1 + 1 + 1 + 1 + 1)))%Qc.
Proof. apply Qc_is_canon. reflexivity. Qed.

(** Closes [q ≠ 0] for a closed rational [q]. *)
Ltac Qc_nonzero :=
  let H := fresh "H" in
  intros H; apply (f_equal this) in H; vm_compute in H; discriminate H.

(** X19: in exact rational arithmetic [convert_temperature] keeps the
    order of temperatures in both directions, and the only temperature
    that reads the same on both scales is -40. *)
Theorem convert_temperature_keeps_order (t1 t2 : Qc) :
  ((t1 < t2)%Qc →
   (convert_temperature t1 (Some true) < convert_temperature t2 (Some true))%Qc
   ∧ (convert_temperature t1 (Some false)
      < convert_temperature t2 (Some false))%Qc)
  ∧ (convert_temperature t1 (Some true) = t1 ↔ t1 = Q2Qc (inject_Z (-40)))
  ∧ (convert_temperature t1 (Some false) = t1 ↔ t1 = Q2Qc (inject_Z (-40))).
Proof.
  unfold convert_temperature; simpl. split; [| split].
  - intros Hlt. apply Qclt_minus_iff in Hlt. split; apply Qclt_minus_iff.
    + replace (t2 * Q2Qc (inject_Z 9) / Q2Qc (inject_Z 5) + Q2Qc (inject_Z 32)
               + - (t1 * Q2Qc (inject_Z 9) / Q2Qc (inject_Z 5)
                    + Q2Qc (inject_Z 32)))%Qc
        with ((t2 + - t1) * (Q2Qc (inject_Z 9) / Q2Qc (inject_Z 5)))%Qc
        by (field; discriminate).
      rewrite <- (Qcmult_0_l (Q2Qc (inject_Z 9) / Q2Qc (inject_Z 5))).
      apply Qcmult_lt_compat_r; [exact Qc_nine_fifths_pos | exact Hlt].
    + replace ((t2 - Q2Qc (inject_Z 32)) * Q2Qc (inject_Z 5) / Q2Qc (inject_Z 9)
               + - ((t1 - Q2Qc (inject_Z 32)) * Q2Qc (inject_Z 5)
                    / Q2Qc (inject_Z 9)))%Qc
        with ((t2 + - t1) * (Q2Qc (inject_Z 5) / Q2Qc (inject_Z 9)))%Qc
        by (field; discriminate).
      rewrite <- (Qcmult_0_l (Q2Qc (inject_Z 5) / Q2Qc (inject_Z 9))).
      apply Qcmult_lt_compat_r; [exact Qc_five_ninths_pos | exact Hlt].
  - split; [| intros ->; apply Qc_is_canon; reflexivity].
    rewrite Qc_nine, Qc_five, Qc_thirty_two, Qc_minus_forty. intros Hfix.
    assert (Heq :
      (t1 + (1 + 1) * (1 + 1) * (1 + 1) * (1 + 1 + 1 + 1 + 1)
       = (1 + 1 + 1 + 1 + 1) / ((1 + 1) * (1 + 1))
         * (t1 * ((1 + 1 + 1) * (1 + 1 + 1)) / (1 + 1 + 1 + 1 + 1)
            + (1 + 1) * (1 + 1) * (1 + 1) * (1 + 1) * (1 + 1) - t1))%Qc)
      by (field; split; Qc_nonzero).
    rewrite Hfix in Heq. replace (t1 - t1)%Qc with 0%Qc in Heq by ring.
    rewrite Qcmult_0_r in Heq.
    replace t1
      with (t1 + (1 + 1) * (1 + 1) * (1 + 1) * (1 + 1 + 1 + 1 + 1)
            - (1 + 1) * (1 + 1) * (1 + 1) * (1 + 1 + 1 + 1 + 1))%Qc at 1
      by ring.
    rewrite Heq. ring.
  - split; [| intros ->; apply Qc_is_canon; reflexivity].
    rewrite Qc_nine, Qc_five, Qc_thirty_two, Qc_minus_forty. intros Hfix.
    assert (Heq :
      (t1 + (1 + 1) * (1 + 1) * (1 + 1) * (1 + 1 + 1 + 1 + 1)
       = (1 + 1 + 1) * (1 + 1 + 1) / ((1 + 1) * (1 + 1))
         * (t1 - (t1 - (1 + 1) * (1 + 1) * (1 + 1) * (1 + 1) * (1 + 1))
                 * (1 + 1 + 1 + 1 + 1) / ((1 + 1 + 1) * (1 + 1 + 1))))%Qc)
      by (field; split; Qc_nonzero).
    rewrite Hfix in Heq. replace (t1 - t1)%Qc with 0%Qc in Heq by ring.
    rewrite Qcmult_0_r in Heq.
    replace t1
      with (t1 + (1 + 1) * (1 + 1) * (1 + 1) * (1 + 1 + 1 + 1 + 1)
            - (1 + 1) * (1 + 1) * (1 + 1) * (1 + 1 + 1 + 1 + 1))%Qc at 1
      by ring.
    rewrite Heq. ring.
Qed.

Lemma convert_temperature_keeps_order_witness :
  (convert_temperature (Q2Qc (inject_Z 20)) (Some true)
   < convert_temperature (Q2Qc (inject_Z 25)) (Some true))%Qc.
Proof.
  destruct (convert_temperature_keeps_order (Q2Qc (inject_Z 20))
              (Q2Qc (inject_Z 25))) as [Hlt _].
  apply Hlt. reflexivity.
Defined.

(** ** The mock fetch *)

(** X20: [async_fetch_data] waits once, for the same time whatever the
    URL, and the data it returns tells the URLs apart: two URLs with the
    same data are the same URL. *)
Theorem async_fetch_data_tells_urls_apart (url1 url2 : string) :
  (async_fetch_data url1).1 = (async_fetch_data url2).1
  ∧ length (async_fetch_data url1).1 = 1%nat
  ∧ ((async_fetch_data url1).2 = (async_fetch_data url2).2 → url1 = url2).
Proof.
  split; [done |]. split; [done |].
  unfold async_fetch_data. simpl. intros Heq.
  by apply (String.app_inj "Mock data from ") in Heq.
Qed.

Lemma async_fetch_data_tells_urls_apart_witness :
  "https://example.com/api/data" = "https://example.com/api/data".
Proof.
  apply (proj2 (proj2 (async_fetch_data_tells_urls_apart
                         "https://example.com/api/data"
                         "https://example.com/api/data"))).
  reflexivity.
Defined.

(** ** The environment *)

Section Environment.

Context {Client Agent : Type} {L : Lower}.
Variable new_client : result Client.
Variable create_agent : Client → result Agent.
Variable agent_tools : Agent → list tool.
Variable run_stream : Agent → string → stream * Agent.
Variable agent_run : Agent → string → result run_result * Agent.
Variable agent_ask : Agent → string → result string * Agent.


End Environment.


(** ** What is printed around a call of the agent *)

Lemma flat_map_print_end (texts : list string) :
  flat_map print_end texts = map Stdout texts.
Proof. induction texts as [|text texts IH]; simpl; [done | by rewrite IH]. Qed.

(** X23: a line that goes to the agent is answered on the terminal by
    the label "Agent: ", written before the call, then the texts of the
    chunks of the stream, each as it is and in the order of the stream,
    then prints only; when the stream ends normally these are two line
    breaks. *)
Theorem response_is_echoed_chunk_by_chunk (Agent : Type) {L : Lower}
    (agent_tools : Agent → list tool)
    (run_stream : Agent → string → stream * Agent)
    (self : ConversationLoop Agent) (raw : string)
    (s : stream) (agent' : Agent) :
  strip raw ≠ "" →
  startswith_slash (strip raw) = false →
  run_stream (agent self) (strip raw) = (s, agent') →
  ∃ tail,
    (iteration agent_tools run_stream self (Return raw)).1.1
    = [Stdout "You: "; Stdout "Agent: "; RunStream (strip raw)]
        ++ map Stdout (chunks s) ++ tail
    ∧ only_stdout tail
    ∧ (stream_end s = None → tail = [Stdout nl; Stdout nl]).
Proof.
  intros Hne Hslash Hrun.
  destruct (iteration agent_tools run_stream self (Return raw))
    as [[out self'] ctl] eqn:Hit.
  apply iteration_cases in Hit
    as [(_ & _ & _ & Hq)
       | (raw' & s' & tail & [= <-] & _ & _ & Hrun' & -> & Htail & Hc)].
  - destruct (Hq raw eq_refl); congruence.
  - rewrite Hrun in Hrun'. injection Hrun' as <- _.
    exists tail. rewrite <- flat_map_print_end. split; [done |].
    split; [done |]. intros Hend.
    destruct Hc as [(_ & _ & -> & _) | (Hsome & _)]; [done | congruence].
Qed.

Lemma response_is_echoed_chunk_by_chunk_witness :
  ∃ tail,
    (iteration (L := ascii_only) (fun _ : unit => [])
       (fun a _ => (mk_stream ["Hel"; "lo"] None, a))
       (init tt) (Return "hi")).1.1
    = [Stdout "You: "; Stdout "Agent: "; RunStream "hi"]
        ++ map Stdout ["Hel"; "lo"] ++ tail
    ∧ only_stdout tail.
Proof.
  destruct (response_is_echoed_chunk_by_chunk unit (L := ascii_only)
              (fun _ : unit => [])
              (fun a _ => (mk_stream ["Hel"; "lo"] None, a))
              (init tt) "hi" (mk_stream ["Hel"; "lo"] None) tt)
    as (tail & Hout & Htail & _).
  - vm_compute. discriminate.
  - reflexivity.
  - reflexivity.
  - exists tail. split; [exact Hout | exact Htail].
Defined.

(** X24: for one test query the tool template prints the query before
    it calls [agent.run]; if the call raises, nothing more is printed
    and the exception goes on; otherwise the answer is printed, and the
    tool calls are listed, one line each under a header, only when there
    are some. *)
Theorem ask_reports_the_tool_calls (Agent : Type)
    (agent_run : Agent → string → result run_result * Agent)
    (a : Agent) (query : string) :
  let before := print (nl +:+ nl +:+ "User: " +:+ query) ++ [AgentRun query] in
  (∀ e a', agent_run a query = (Raise e, a') →
     tool_agent_template.ask agent_run a query = (before, Raise e, a'))
  ∧ (∀ r a', agent_run a query = (Return r, a') →
       (tool_agent_template.ask agent_run a query).1.2 = Return tt
       ∧ (tool_agent_template.ask agent_run a query).2 = a'
       ∧ (tool_calls r = [] →
          (tool_agent_template.ask agent_run a query).1.1
          = before ++ print ("Agent: " +:+ text r))
       ∧ (tool_calls r ≠ [] →
          (tool_agent_template.ask agent_run a query).1.1
          = before ++ print ("Agent: " +:+ text r)
              ++ print (nl +:+ "  Tools called:")
              ++ map (fun c => Stdout ("    - " +:+ call_name c +:+ "("
                                       +:+ call_arguments c +:+ ")" +:+ nl))
                     (tool_calls r))).
Proof.
  intros before. unfold tool_agent_template.ask. fold before. split.
  - by intros e a' ->.
  - intros r a' ->. cbn [fst snd]. split; [done |]. split; [done |].
    assert (Hmap : ∀ l : list tool_call,
      flat_map (fun c => print ("    - " +:+ call_name c +:+ "("
                                +:+ call_arguments c +:+ ")")) l
      = map (fun c => Stdout ("    - " +:+ call_name c +:+ "("
                              +:+ call_arguments c +:+ ")" +:+ nl)) l).
    { induction l as [|x l IH]; simpl; [done |].
      by rewrite IH, !append_assoc. }
    destruct (tool_calls r) as [|c calls]; split.
    + intros _. by rewrite app_nil_r.
    + by intros [].
    + discriminate.
    + intros _. by rewrite Hmap.
Qed.

Lemma ask_reports_the_tool_calls_witness :
  tool_agent_template.ask
    (fun (a : unit) _ => (Raise (mk_exn Exception "timeout"), a)) tt
    "What time is it right now?"
  = (print (nl +:+ nl +:+ "User: What time is it right now?")
       ++ [AgentRun "What time is it right now?"],
     Raise (mk_exn Exception "timeout"), tt).
Proof.
  destruct (ask_reports_the_tool_calls unit
              (fun (a : unit) _ => (Raise (mk_exn Exception "timeout"), a)) tt
              "What time is it right now?") as [Hraise _].
  apply Hraise. reflexivity.
Defined.
